(** * MCP clients: a shallow embedding of the subprocess and session clients

    The development follows three source files:
    - [mcp_demo/mcp_client.py]             ([MCPDiagramClient], module [Diagram]),
    - [mcp_demo/mcp_client_lightweight.py] ([LightweightMCPClient], module [Lightweight]),
    - [mcp_client.py]                      ([TerraformMCPClient], module [Terraform]).

    Python values are the values JSON can carry; a dict is an association
    list in insertion order, the order in which [json.dumps] writes it.
    Code that may raise lives in the exception type [py];
    code that also mutates an object lives in the state monad [M], whose third
    outcome [Hang] is a call that never returns (a blocking read or wait). *)

From Stdlib Require Import String Ascii List ZArith Bool DecimalString.
Import ListNotations.
Set Warnings "-register-all".
Open Scope string_scope.
Open Scope list_scope.

(** ** Python values *)

Inductive pyval : Type :=
| PNone
| PBool (b : bool)
| PInt (n : Z)
| PFloat (literal : string)
| PStr (s : string)
| PList (xs : list pyval)
| PDict (items : list (string * pyval)).

(** [d.get(k)] on the association list behind a dict. *)
Fixpoint dict_get {V : Type} (k : string) (d : list (string * V)) : option V :=
  match d with
  | [] => None
  | (k', v) :: d' => if String.eqb k k' then Some v else dict_get k d'
  end.

(** [d[k] = v]: an existing key keeps its position, a new key goes last. *)
Fixpoint dict_set {V : Type} (k : string) (v : V) (d : list (string * V))
  : list (string * V) :=
  match d with
  | [] => [(k, v)]
  | (k', v') :: d' =>
      if String.eqb k k' then (k, v) :: d' else (k', v') :: dict_set k v d'
  end.

(** The keys of a dict are distinct. *)
Fixpoint keys_unique {V : Type} (d : list (string * V)) : bool :=
  match d with
  | [] => true
  | (k, _) :: d' =>
      match dict_get k d' with
      | None => keys_unique d'
      | Some _ => false
      end
  end.

(** [{**a, **b}]: a copy of [a] in which every item of [b] is then set, in
    the order of [b]. *)
Definition dict_merge {V : Type} (a b : list (string * V)) : list (string * V) :=
  fold_left (fun d kv => dict_set (fst kv) (snd kv) d) b a.

(** ** Exceptions *)

(** The classes the clients tell apart, and every other subclass of
    [Exception] by name.  [exn_str] is [str(e)]. *)
Inductive exn_class : Type :=
| JSONDecodeError
| RuntimeError
| KeyError
| TypeError
| AttributeError
| OtherException (name : string).

Record exn : Type := mkExn { exn_cls : exn_class; exn_str : string }.

Definition is_JSONDecodeError (e : exn) : bool :=
  match exn_cls e with JSONDecodeError => true | _ => false end.

(** A computation without side effect that returns or raises. *)
Inductive py (A : Type) : Type :=
| Ok (a : A)
| Exc (e : exn).
Arguments Ok {A} a.
Arguments Exc {A} e.

Definition py_bind {A B : Type} (m : py A) (k : A -> py B) : py B :=
  match m with Ok a => k a | Exc e => Exc e end.

(** [try: m  except Exception as e: h e] *)
Definition py_try {A : Type} (m : py A) (h : exn -> py A) : py A :=
  match m with Ok a => Ok a | Exc e => h e end.

(** ** State, exceptions and blocking *)

Inductive res (S A : Type) : Type :=
| Ret (a : A) (s : S)
| Raise (e : exn) (s : S)
| Hang.
Arguments Ret {S A} a s.
Arguments Raise {S A} e s.
Arguments Hang {S A}.

Definition M (S A : Type) : Type := S -> res S A.

Definition ret {S A : Type} (a : A) : M S A := fun s => Ret a s.
Definition raise {S A : Type} (e : exn) : M S A := fun s => Raise e s.
Definition bind {S A B : Type} (m : M S A) (k : A -> M S B) : M S B :=
  fun s => match m s with
           | Ret a s' => k a s'
           | Raise e s' => Raise e s'
           | Hang => Hang
           end.
Definition lift {S A : Type} (m : py A) : M S A :=
  fun s => match m with Ok a => Ret a s | Exc e => Raise e s end.
Definition get {S : Type} : M S S := fun s => Ret s s.

(** [try: m  except Exception as e: h e].  What [m] did to the state before
    it raised stays done. *)
Definition try_except {S A : Type} (m : M S A) (h : exn -> M S A) : M S A :=
  fun s => match m s with
           | Ret a s' => Ret a s'
           | Raise e s' => h e s'
           | Hang => Hang
           end.

(** [try: m  finally: cleanup].  The cleanup runs when [m] returns and when
    it raises; what [m] raised is raised again unless the cleanup raises. *)
Definition try_finally {S A B : Type} (m : M S A) (cleanup : M S B) : M S A :=
  fun s => match m s with
           | Ret a s' =>
               match cleanup s' with
               | Ret _ s'' => Ret a s''
               | Raise e s'' => Raise e s''
               | Hang => Hang
               end
           | Raise e s' =>
               match cleanup s' with
               | Ret _ s'' => Raise e s''
               | Raise e' s'' => Raise e' s''
               | Hang => Hang
               end
           | Hang => Hang
           end.

Declare Scope py_scope.
Delimit Scope py_scope with py.
Notation "x <- m ;; k" := (bind m (fun x => k))
  (at level 61, m at next level, right associativity) : py_scope.
Notation "m ;;; k" := (bind m (fun _ => k))
  (at level 61, right associativity) : py_scope.
Notation "x <~ m ;; k" := (py_bind m (fun x => k))
  (at level 61, m at next level, right associativity) : py_scope.

(** ** Library operations on values *)

(** [v[k]] for a string key [k]: a dict gives the item or [KeyError]; a value
    of any other type raises [TypeError]. *)
Definition getitem (v : pyval) (k : string) : py pyval :=
  match v with
  | PDict d =>
      match dict_get k d with
      | Some x => Ok x
      | None => Exc (mkExn KeyError ("'" ++ k ++ "'"))
      end
  | _ => Exc (mkExn TypeError "indices must be integers or the object is not subscriptable")
  end.

(** [v.get(k, default)]: only a dict has the method. *)
Definition dict_get_method (v : pyval) (k : string) (default : pyval) : py pyval :=
  match v with
  | PDict d => Ok (match dict_get k d with Some x => x | None => default end)
  | _ => Exc (mkExn AttributeError "object has no attribute 'get'")
  end.

(** Whitespace for [str.strip()], on code points below 256. *)
Definition is_space (c : ascii) : bool :=
  let n := nat_of_ascii c in
  (((9 <=? n) && (n <=? 13)) || ((28 <=? n) && (n <=? 32))
   || (n =? 133) || (n =? 160))%nat.

Fixpoint lstrip (s : string) : string :=
  match s with
  | EmptyString => EmptyString
  | String c s' => if is_space c then lstrip s' else s
  end.

Fixpoint string_rev_onto (s acc : string) : string :=
  match s with
  | EmptyString => acc
  | String c s' => string_rev_onto s' (String c acc)
  end.

Definition string_rev (s : string) : string := string_rev_onto s EmptyString.

Definition strip (s : string) : string :=
  string_rev (lstrip (string_rev (lstrip s))).

(** The state of the file a path names, as [open(path, 'r')] followed by
    reading it sees it: [open] or the read raises, or the text is there. *)
Inductive file_state : Type :=
| Unavailable (e : exn)
| Text (content : string).

Definition read_file (f : file_state) : py string :=
  match f with Unavailable e => Exc e | Text t => Ok t end.

(** ** The standard library's JSON codec and the operating system *)

(** [json.loads] returns the decoded value or raises; [json.dumps] returns
    the text or raises.  The clients are verified against every codec. *)
Class Json : Type := {
  json_loads : string -> py pyval;
  json_dumps : pyval -> py string
}.

(** What a spawned child does, as its parent observes it: whether it has
    exited when first polled, how it takes SIGTERM, whether its input pipe is
    broken, and what its output pipe carries. *)
Inductive tick : Type :=
| Quiet
| Emit (line : string)
| Fault (e : exn).

Record child : Type := mkChild {
  child_exit : option Z;
  child_on_sigterm : option Z;
  child_stdin_fault : option exn;
  child_stdout : list tick;
  child_stdout_closes : bool
}.

Class OS : Type := {
  environ : list (string * string);
  spawn : list string -> list (string * string) -> py child;
  files : string -> file_state
}.


(** ** [subprocess.Popen] *)

(** The handle the parent holds.  [exit_status] is what [poll()] returns:
    [None] while the child runs.  [stdin_data] is the text delivered to the
    child so far.  [stdout] is what the child's output pipe does from now on,
    one entry per unit of time; after the last entry the pipe is at end of
    file when [stdout_closes] holds and silent for ever when it does not. *)
Record Popen : Type := mkPopen {
  popen_args : list string;
  popen_env : list (string * string);
  exit_status : option Z;
  on_sigterm : option Z;
  stdin_fault : option exn;
  stdin_data : list string;
  stdout : list tick;
  stdout_closes : bool
}.

Definition set_exit_status (st : option Z) (p : Popen) : Popen :=
  mkPopen (popen_args p) (popen_env p) st (on_sigterm p) (stdin_fault p)
          (stdin_data p) (stdout p) (stdout_closes p).

Definition set_stdin_data (d : list string) (p : Popen) : Popen :=
  mkPopen (popen_args p) (popen_env p) (exit_status p) (on_sigterm p)
          (stdin_fault p) d (stdout p) (stdout_closes p).

Definition set_stdout (ts : list tick) (p : Popen) : Popen :=
  mkPopen (popen_args p) (popen_env p) (exit_status p) (on_sigterm p)
          (stdin_fault p) (stdin_data p) ts (stdout_closes p).

(** [Popen(cmd, env=env)] wants every value of [env] to be a [str]. *)
Fixpoint env_strings (env : list (string * pyval)) : py (list (string * string)) :=
  match env with
  | [] => Ok []
  | (k, PStr v) :: env' =>
      (rest <~ env_strings env' ;; Ok ((k, v) :: rest))%py
  | (k, _) :: _ =>
      Exc (mkExn TypeError "expected str, bytes or os.PathLike object")
  end.

Definition Popen_new `{OS} (cmd : list string) (env : list (string * pyval))
  : py Popen :=
  (env_s <~ env_strings env ;;
   ch <~ spawn cmd env_s ;;
   Ok (mkPopen cmd env_s (child_exit ch) (child_on_sigterm ch)
               (child_stdin_fault ch) [] (child_stdout ch)
               (child_stdout_closes ch)))%py.

Definition poll (p : Popen) : option Z := exit_status p.

(** [terminate()] signals a child that has not been seen to exit, and does
    nothing to one that has. *)
Definition terminate : M Popen unit :=
  fun p => match exit_status p with
           | Some _ => Ret tt p
           | None => Ret tt (set_exit_status (on_sigterm p) p)
           end.

(** [wait()] returns once the child has exited and blocks while it runs. *)
Definition wait : M Popen Z :=
  fun p => match exit_status p with
           | Some code => Ret code p
           | None => Hang
           end.

(** [stdin.write(text)] and [stdin.flush()]: on a broken pipe both raise and
    nothing reaches the child. *)
Definition stdin_write (text : string) : M Popen unit :=
  fun p => match stdin_fault p with
           | Some e => Raise e p
           | None => Ret tt (set_stdin_data (stdin_data p ++ [text]) p)
           end.

Definition stdin_flush : M Popen unit :=
  fun p => match stdin_fault p with
           | Some e => Raise e p
           | None => Ret tt p
           end.

(** [stdout.readline()]: the next line, the empty string at end of file. *)
Fixpoint readline_from (ts : list tick) (closes : bool) : res (list tick) string :=
  match ts with
  | [] => if closes then Ret EmptyString [] else Hang
  | Quiet :: ts' => readline_from ts' closes
  | Emit line :: ts' => Ret line ts'
  | Fault e :: ts' => Raise e ts'
  end.

Definition stdout_readline : M Popen string :=
  fun p => match readline_from (stdout p) (stdout_closes p) with
           | Ret line ts => Ret line (set_stdout ts p)
           | Raise e ts => Raise e (set_stdout ts p)
           | Hang => Hang
           end.

Definition newline : string := String "010" EmptyString.

(** Truth value of a [str]. *)
Definition str_truthy (s : string) : bool :=
  match s with EmptyString => false | _ => true end.

(** [' '.join(cmd)] raises unless every item is a [str]; [cmd_strings] gives
    the items it saw. *)
Fixpoint cmd_strings (cmd : list pyval) : py (list string) :=
  match cmd with
  | [] => Ok []
  | PStr s :: cmd' => (rest <~ cmd_strings cmd' ;; Ok (s :: rest))%py
  | _ :: _ => Exc (mkExn TypeError "sequence item: expected str instance")
  end.

(** [[x] + v] for a value [v]: only a list can be appended to a list. *)
Definition list_plus (xs : list pyval) (v : pyval) : py (list pyval) :=
  match v with
  | PList ys => Ok (xs ++ ys)
  | _ => Exc (mkExn TypeError "can only concatenate list to list")
  end.

(** A [str]-valued mapping seen as a dict of values. *)
Definition str_items (d : list (string * string)) : list (string * pyval) :=
  map (fun kv => (fst kv, PStr (snd kv))) d.

(** [{**os.environ, **env}]: [env] has to be a mapping. *)
Definition merge_environ `{OS} (env : pyval) : py (list (string * pyval)) :=
  match env with
  | PDict items =>
      Ok (dict_merge (str_items environ) items)
  | _ => Exc (mkExn TypeError "object is not a mapping")
  end.

Definition error_dict (message : string) : pyval :=
  PDict [("error", PStr message)].

(** ** [MCPDiagramClient] (mcp_demo/mcp_client.py) *)

Module Diagram.

Record MCPDiagramClient : Type := mkClient {
  config_path : string;
  server_config : pyval;
  server_process : option Popen
}.

Definition default_config : pyval :=
  PDict [("command", PStr "python");
         ("args", PList [PStr "-m"; PStr "aws_diagram_mcp_server"]);
         ("env", PDict [("PYTHONPATH", PStr ".")])].

Definition _load_config `{Json} `{OS} (path : string) : py pyval :=
  py_try
    (text <~ read_file (files path) ;;
     config <~ json_loads text ;;
     servers <~ getitem config "mcpServers" ;;
     getitem servers "aws-diagram")%py
    (fun e => Ok default_config).

Definition __init__ `{Json} `{OS} (path : string) : py MCPDiagramClient :=
  (config <~ _load_config path ;;
   Ok (mkClient path config None))%py.

(** Run an operation of the process handle on [self.server_process]. *)
Definition on_process {A : Type} (m : M Popen A) : M MCPDiagramClient A :=
  fun self =>
    match server_process self with
    | None => Raise (mkExn AttributeError "'NoneType' object has no attribute") self
    | Some p =>
        match m p with
        | Ret a p' => Ret a (mkClient (config_path self) (server_config self) (Some p'))
        | Raise e p' => Raise e (mkClient (config_path self) (server_config self) (Some p'))
        | Hang => Hang
        end
    end.

Definition set_server_process (p : Popen) : M MCPDiagramClient unit :=
  fun self => Ret tt (mkClient (config_path self) (server_config self) (Some p)).

Definition start_server `{OS} : M MCPDiagramClient bool :=
  try_except
    (self <- get ;;
     command <- lift (getitem (server_config self) "command") ;;
     args <- lift (getitem (server_config self) "args") ;;
     cmd <- lift (list_plus [command] args) ;;
     env <- lift (dict_get_method (server_config self) "env" (PDict [])) ;;
     cmd_s <- lift (cmd_strings cmd) ;;
     merged_env <- lift (merge_environ env) ;;
     process <- lift (Popen_new cmd_s merged_env) ;;
     set_server_process process ;;;
     match poll process with
     | None => ret true
     | Some _ => ret false
     end)%py
    (fun e => ret false).

(** The log lines the client writes are not part of the state. *)
Definition stop_server : M MCPDiagramClient unit :=
  fun self =>
    match server_process self with
    | Some _ => (on_process terminate ;;; on_process wait ;;; ret tt)%py self
    | None => Ret tt self
    end.

Definition make_request (method : string) (params : pyval) : pyval :=
  PDict [("jsonrpc", PStr "2.0");
         ("id", PInt 1);
         ("method", PStr method);
         ("params", params)].

Definition send_request `{Json} (method : string) (params : pyval)
  : M MCPDiagramClient pyval :=
  fun self =>
    match server_process self with
    | None => Ret (error_dict "Server not running") self
    | Some p =>
        match poll p with
        | Some _ => Ret (error_dict "Server not running") self
        | None =>
            let request := make_request method params in
            try_except
              (dumped <- lift (json_dumps request) ;;
               on_process (stdin_write (dumped ++ newline)) ;;;
               on_process stdin_flush ;;;
               response_line <- on_process stdout_readline ;;
               if str_truthy response_line then
                 response <- lift (json_loads (strip response_line)) ;;
                 ret response
               else
                 ret (error_dict "No response from server"))%py
              (fun e => ret (error_dict (exn_str e)))
              self
        end
    end.

Definition generate_aws_diagram `{Json} (requirements : string)
    (components : option (list string)) : M MCPDiagramClient pyval :=
  let params := [("requirements", PStr requirements);
                 ("diagram_type", PStr "aws");
                 ("format", PStr "png")] in
  let params :=
    match components with
    | Some (c :: cs) => dict_set "components" (PList (map PStr (c :: cs))) params
    | _ => params
    end in
  send_request "generate_diagram" (PDict params).

Definition list_available_tools `{Json} : M MCPDiagramClient pyval :=
  send_request "tools/list" (PDict []).

Definition get_server_info `{Json} : M MCPDiagramClient pyval :=
  send_request "initialize"
    (PDict [("protocolVersion", PStr "2024-11-05");
            ("capabilities", PDict [("tools", PDict [])]);
            ("clientInfo", PDict [("name", PStr "devgenius-mcp-client");
                                  ("version", PStr "1.0.0")])]).

(** [main], after [client = MCPDiagramClient()]. *)
Definition main_with `{Json} `{OS} : M MCPDiagramClient unit :=
  try_finally
    (try_except
       (started <- start_server ;;
        if started then
          info <- get_server_info ;;
          tools <- list_available_tools ;;
          result <- generate_aws_diagram
                      "Create a simple web application with API Gateway, Lambda function, and DynamoDB database"
                      None ;;
          ret tt
        else ret tt)%py
       (fun e => ret tt))
    stop_server.

Definition main `{Json} `{OS} : py (res MCPDiagramClient unit) :=
  (client <~ __init__ "mcp_config.json" ;; Ok (main_with client))%py.

End Diagram.

(** ** [LightweightMCPClient] (mcp_demo/mcp_client_lightweight.py) *)

Module Lightweight.

Record LightweightMCPClient : Type := mkClient {
  config_path : string;
  server_config : pyval
}.

Definition default_config : pyval :=
  PDict [("command", PStr "python");
         ("args", PList [PStr "-m"; PStr "direct_diagram_generator"]);
         ("env", PDict [("PYTHONPATH", PStr ".")])].

Definition _load_config `{Json} `{OS} (path : string) : py pyval :=
  py_try
    (text <~ read_file (files path) ;;
     config <~ json_loads text ;;
     servers <~ getitem config "mcpServers" ;;
     getitem servers "aws-diagram")%py
    (fun _ => Ok default_config).

Definition __init__ `{Json} `{OS} (path : string) : py LightweightMCPClient :=
  (config <~ _load_config path ;;
   Ok (mkClient path config))%py.

End Lightweight.

(** ** [TerraformMCPClient] (mcp_client.py) *)

Module Terraform.

(** The result types of the [mcp] package, as far as the client reads them.
    A tool has an [inputSchema] attribute or not; an item of a result's
    content has a [text] attribute ([TextContent], [TextResourceContents])
    or not (images, blobs, embedded resources). *)
Record Tool : Type := mkTool {
  tool_name : pyval;
  tool_description : pyval;
  tool_inputSchema : option pyval
}.

Record Resource : Type := mkResource {
  resource_uri : string;
  resource_name : pyval;
  resource_description : pyval;
  resource_mimeType : pyval
}.

Inductive content_item : Type :=
| TextItem (text : string)
| OtherItem (kind : string).

(** [item.text] *)
Definition item_text (item : content_item) : py string :=
  match item with
  | TextItem t => Ok t
  | OtherItem kind =>
      Exc (mkExn AttributeError ("'" ++ kind ++ "' object has no attribute 'text'"))
  end.

Inductive request : Type :=
| ListTools
| ListResources
| ReadResource (uri : string)
| CallTool (name : string) (arguments : pyval).

(** What awaiting a call on the session gives: a result, an exception, or
    nothing ever. *)
Inductive answer (A : Type) : Type :=
| Answers (a : A)
| Fails (e : exn)
| Silent.
Arguments Answers {A} a.
Arguments Fails {A} e.
Arguments Silent {A}.

(** [mcp.ClientSession]: whether its context has been left, the calls it
    was asked to make, and how it answers each method, which may depend on
    whether its context has been left. *)
Record ClientSession : Type := mkSession {
  closed : bool;
  sent : list request;
  on_list_tools : bool -> answer (list Tool);
  on_list_resources : bool -> answer (list Resource);
  on_read_resource : bool -> string -> answer (list content_item);
  on_call_tool : bool -> string -> pyval -> answer (list content_item)
}.

Definition list_tools (s : ClientSession) : answer (list Tool) :=
  on_list_tools s (closed s).

Definition list_resources (s : ClientSession) : answer (list Resource) :=
  on_list_resources s (closed s).

Definition read_resource (s : ClientSession) (uri : string)
  : answer (list content_item) :=
  on_read_resource s (closed s) uri.

Definition call_tool (s : ClientSession) (name : string) (arguments : pyval)
  : answer (list content_item) :=
  on_call_tool s (closed s) name arguments.

Definition record_call (r : request) (s : ClientSession) : ClientSession :=
  mkSession (closed s) (sent s ++ [r]) (on_list_tools s) (on_list_resources s)
            (on_read_resource s) (on_call_tool s).

Definition close_session (s : ClientSession) : ClientSession :=
  mkSession true (sent s) (on_list_tools s) (on_list_resources s)
            (on_read_resource s) (on_call_tool s).

(** [stdio_client(params)], [ClientSession(read, write)] and
    [session.initialize()] together: the session they establish for a command
    line, or the exception one of them raises. *)
Class Mcp : Type := {
  open_session : string -> list string -> py ClientSession
}.

Record TerraformMCPClient : Type := mkClient {
  server_path : string;
  server_args : list string;
  session : option ClientSession
}.

Definition __init__ : TerraformMCPClient :=
  mkClient "python3.10" ["-m"; "awslabs.terraform_mcp_server.server"] None.

Definition set_session (s : option ClientSession) : M TerraformMCPClient unit :=
  fun self => Ret tt (mkClient (server_path self) (server_args self) s).

(** [connect] up to its [yield]. *)
Definition connect_enter `{Mcp} : M TerraformMCPClient unit :=
  (self <- get ;;
   s <- lift (open_session (server_path self) (server_args self)) ;;
   set_session (Some s))%py.

(** [connect] after its [yield]: both [async with] blocks are left, which
    closes the session object [self.session] still names. *)
Definition connect_exit : M TerraformMCPClient unit :=
  fun self =>
    match session self with
    | Some s => set_session (Some (close_session s)) self
    | None => Ret tt self
    end.

(** [async with client.connect(): return await body] *)
Definition with_connect `{Mcp} {A : Type} (body : M TerraformMCPClient A)
  : M TerraformMCPClient A :=
  (connect_enter ;;;
   fun self => match body self with
               | Ret a self' => (connect_exit ;;; ret a)%py self'
               | Raise e self' => (connect_exit ;;; raise e)%py self'
               | Hang => Hang
               end)%py.

(** [await self.session.method(...)] *)
Definition await_session {A : Type} (r : request)
    (method : ClientSession -> answer A) : M TerraformMCPClient A :=
  fun self =>
    match session self with
    | None => Raise (mkExn AttributeError "'NoneType' object has no attribute") self
    | Some s =>
        let self' := mkClient (server_path self) (server_args self)
                              (Some (record_call r s)) in
        match method s with
        | Answers a => Ret a self'
        | Fails e => Raise e self'
        | Silent => Hang
        end
    end.

Definition not_connected : exn := mkExn RuntimeError "Not connected to MCP server".

(** [if not self.session: raise RuntimeError(...)], then [body]. *)
Definition guarded {A : Type} (body : M TerraformMCPClient A)
  : M TerraformMCPClient A :=
  fun self =>
    match session self with
    | None => Raise not_connected self
    | Some _ => body self
    end.

Definition tool_dict (tool : Tool) : pyval :=
  let d := [("name", tool_name tool); ("description", tool_description tool)] in
  PDict match tool_inputSchema tool with
        | Some schema => dict_set "inputSchema" schema d
        | None => d
        end.

Definition get_available_tools : M TerraformMCPClient (list pyval) :=
  guarded
    (response <- await_session ListTools list_tools ;;
     ret (map tool_dict response))%py.

Definition resource_dict (resource : Resource) : pyval :=
  PDict [("uri", PStr (resource_uri resource));
         ("name", resource_name resource);
         ("description", resource_description resource);
         ("mimeType", resource_mimeType resource)].

Definition get_available_resources : M TerraformMCPClient (list pyval) :=
  guarded
    (response <- await_session ListResources list_resources ;;
     ret (map resource_dict response))%py.

Definition error_outcome (e : exn) (type : string) : pyval :=
  PDict [("status", PStr "error");
         ("error", PStr (exn_str e));
         ("type", PStr type)].

(** The body the three resource readers share: they differ in the URI and
    in the ["type"] they report. *)
Definition read_outcome (uri type : string) : M TerraformMCPClient pyval :=
  guarded
    (try_except
       (contents <- await_session (ReadResource uri) (fun s => read_resource s uri) ;;
        content <- lift match contents with
                        | item :: _ => item_text item
                        | [] => Ok "No content available"
                        end ;;
        content_length <- lift match contents with
                               | item :: _ =>
                                   (t <~ item_text item ;; Ok (Z.of_nat (String.length t)))%py
                               | [] => Ok 0%Z
                               end ;;
        ret (PDict [("status", PStr "success");
                    ("content", PStr content);
                    ("type", PStr type);
                    ("content_length", PInt content_length)]))%py
       (fun e => ret (error_outcome e type))).

Definition get_aws_best_practices : M TerraformMCPClient pyval :=
  read_outcome "terraform://aws_best_practices" "aws_best_practices".

Definition get_workflow_guide : M TerraformMCPClient pyval :=
  read_outcome "terraform://development_workflow" "workflow_guide".

Definition get_aws_provider_resources : M TerraformMCPClient pyval :=
  read_outcome "terraform://aws_provider_resources_listing" "aws_provider_resources".

(** [try: result = json.loads(item.text)
     except json.JSONDecodeError: result = {"output": item.text}] *)
Definition decode_or_output `{Json} (item : content_item) : py pyval :=
  match (text <~ item_text item ;; json_loads text)%py with
  | Ok result => Ok result
  | Exc e =>
      if is_JSONDecodeError e
      then (text <~ item_text item ;; Ok (PDict [("output", PStr text)]))%py
      else Exc e
  end.

(** The body the three tool callers share: they differ in the tool, its
    arguments, the ["type"] they report and what they add on success. *)
Definition tool_outcome `{Json} (name : string) (arguments : pyval)
    (type : string) (extra : list (string * pyval)) : M TerraformMCPClient pyval :=
  guarded
    (try_except
       (content <- await_session (CallTool name arguments)
                                 (fun s => call_tool s name arguments) ;;
        match content with
        | item :: _ =>
            result <- lift (decode_or_output item) ;;
            ret (PDict ([("status", PStr "success");
                         ("result", result);
                         ("type", PStr type)] ++ extra))
        | [] =>
            ret (PDict [("status", PStr "error");
                        ("error", PStr "No response content");
                        ("type", PStr type)])
        end)%py
       (fun e => ret (error_outcome e type))).

(** [x or {}] and [x or []] for an optional argument. *)
Definition or_empty_dict (x : option (list (string * pyval))) : pyval :=
  match x with
  | Some (kv :: d) => PDict (kv :: d)
  | _ => PDict []
  end.

Definition or_empty_list (x : option (list string)) : pyval :=
  match x with
  | Some (a :: l) => PList (map PStr (a :: l))
  | _ => PList []
  end.

Definition optional_str (x : option string) : pyval :=
  match x with Some s => PStr s | None => PNone end.

Definition execute_terraform_command `{Json} (command working_directory : string)
    (variables : option (list (string * pyval))) (aws_region : option string)
  : M TerraformMCPClient pyval :=
  tool_outcome "ExecuteTerraformCommand"
    (PDict [("command", PStr command);
            ("working_directory", PStr working_directory);
            ("variables", or_empty_dict variables);
            ("aws_region", optional_str aws_region);
            ("strip_ansi", PBool true)])
    "terraform_execution" [].

Definition run_checkov_scan `{Json} (working_directory framework : string)
    (check_ids skip_check_ids : option (list string))
  : M TerraformMCPClient pyval :=
  tool_outcome "RunCheckovScan"
    (PDict [("working_directory", PStr working_directory);
            ("framework", PStr framework);
            ("check_ids", or_empty_list check_ids);
            ("skip_check_ids", or_empty_list skip_check_ids);
            ("output_format", PStr "json")])
    "checkov_scan" [].

Definition search_aws_provider_docs `{Json} (asset_name asset_type : string)
  : M TerraformMCPClient pyval :=
  tool_outcome "SearchAwsProviderDocs"
    (PDict [("asset_name", PStr asset_name);
            ("asset_type", PStr asset_type)])
    "aws_provider_docs" [("search_term", PStr asset_name)].

(** The module-level wrappers: a fresh client, one operation inside
    [async with client.connect()]. *)
Definition get_live_best_practices `{Mcp} : res TerraformMCPClient pyval :=
  with_connect get_aws_best_practices __init__.

Definition execute_live_terraform_command `{Json} `{Mcp}
    (command working_directory : string)
    (variables : option (list (string * pyval))) (aws_region : option string)
  : res TerraformMCPClient pyval :=
  with_connect
    (execute_terraform_command command working_directory variables aws_region)
    __init__.

Definition get_available_tools_live `{Mcp} : res TerraformMCPClient pyval :=
  with_connect
    (tools <- get_available_tools ;;
     ret (PDict [("status", PStr "success");
                 ("tools", PList tools);
                 ("tool_count", PInt (Z.of_nat (List.length tools)));
                 ("type", PStr "available_tools")]))%py
    __init__.

Definition get_live_workflow_guide `{Mcp} : res TerraformMCPClient pyval :=
  with_connect get_workflow_guide __init__.

Definition run_live_checkov_scan `{Json} `{Mcp}
    (working_directory framework : string) : res TerraformMCPClient pyval :=
  with_connect (run_checkov_scan working_directory framework None None)
               __init__.

Definition search_live_aws_provider_docs `{Json} `{Mcp}
    (asset_name asset_type : string) : res TerraformMCPClient pyval :=
  with_connect (search_aws_provider_docs asset_name asset_type) __init__.

Definition get_live_aws_provider_resources `{Mcp}
  : res TerraformMCPClient pyval :=
  with_connect get_aws_provider_resources __init__.

(** The module-level [get_available_resources]. *)
Definition get_available_resources_live `{Mcp} : res TerraformMCPClient pyval :=
  with_connect
    (resources <- get_available_resources ;;
     ret (PDict [("status", PStr "success");
                 ("resources", PList resources);
                 ("resource_count", PInt (Z.of_nat (List.length resources)));
                 ("type", PStr "available_resources")]))%py
    __init__.

(** [run_async_function(coro)]: the coroutine runs to its end on a loop of
    its own, which is closed afterwards. *)
Definition run_async_function {A : Type} (coro : res TerraformMCPClient A)
  : res TerraformMCPClient A := coro.

End Terraform.

(** ** A codec to run the clients on concrete frames

    [Codec.json] reads and writes the JSON texts whose strings stay below
    code point 256, with the separators [json.dumps] uses by default.  It
    only instantiates the class [Json] in the examples; the theorems hold
    for every codec. *)

Module Codec.

Definition dquote : ascii := "034"%char.

Definition is_ws (c : ascii) : bool :=
  let n := nat_of_ascii c in
  ((n =? 32) || (n =? 9) || (n =? 10) || (n =? 13))%nat.

Fixpoint skip_ws (s : string) : string :=
  match s with
  | String c s' => if is_ws c then skip_ws s' else s
  | EmptyString => s
  end.

Definition digit_value (c : ascii) : option Z :=
  let n := nat_of_ascii c in
  if ((48 <=? n) && (n <=? 57))%nat then Some (Z.of_nat (n - 48)) else None.

Definition hex_value (c : ascii) : option nat :=
  let n := nat_of_ascii c in
  if ((48 <=? n) && (n <=? 57))%nat then Some (n - 48)%nat
  else if ((97 <=? n) && (n <=? 102))%nat then Some (n - 87)%nat
  else if ((65 <=? n) && (n <=? 70))%nat then Some (n - 55)%nat
  else None.

(** The longest prefix of digits, and what follows it. *)
Fixpoint span_digits (s : string) : string * string :=
  match s with
  | String c s' =>
      match digit_value c with
      | Some _ => let '(ds, rest) := span_digits s' in (String c ds, rest)
      | None => (EmptyString, s)
      end
  | EmptyString => (EmptyString, EmptyString)
  end.

Fixpoint digits_value (acc : Z) (ds : string) : Z :=
  match ds with
  | String c ds' =>
      digits_value (10 * acc + match digit_value c with Some d => d | None => 0 end) ds'
  | EmptyString => acc
  end.

(** [prefix p s]: what follows [p] in [s], when [s] starts with [p]. *)
Fixpoint prefix (p s : string) : option string :=
  match p, s with
  | EmptyString, _ => Some s
  | String a p', String b s' => if Ascii.eqb a b then prefix p' s' else None
  | String _ _, EmptyString => None
  end.

(** The integer part of a number: [0], or digits that do not start with [0]. *)
Definition int_part (s : string) : option (string * string) :=
  match span_digits s with
  | (EmptyString, _) => None
  | (String c ds, rest) =>
      if Ascii.eqb c "0"
      then Some (String c EmptyString, (ds ++ rest)%string)
      else Some (String c ds, rest)
  end.

Definition frac_part (s : string) : string * string :=
  match s with
  | String c s' =>
      if Ascii.eqb c "."
      then match span_digits s' with
           | (EmptyString, _) => (EmptyString, s)
           | (ds, rest) => (String c ds, rest)
           end
      else (EmptyString, s)
  | EmptyString => (EmptyString, s)
  end.

Definition exp_part (s : string) : string * string :=
  match s with
  | String c s' =>
      if (Ascii.eqb c "e" || Ascii.eqb c "E")%bool
      then
        let '(sign, s'') :=
          match s' with
          | String d t =>
              if (Ascii.eqb d "+" || Ascii.eqb d "-")%bool
              then (String d EmptyString, t) else (EmptyString, s')
          | EmptyString => (EmptyString, s')
          end in
        match span_digits s'' with
        | (EmptyString, _) => (EmptyString, s)
        | (ds, rest) => (String c (sign ++ ds)%string, rest)
        end
      else (EmptyString, s)
  | EmptyString => (EmptyString, s)
  end.

Definition parse_number (s : string) : option (pyval * string) :=
  let '(neg, s1) :=
    match s with
    | String c s' => if Ascii.eqb c "-" then (true, s') else (false, s)
    | EmptyString => (false, s)
    end in
  match int_part s1 with
  | None => None
  | Some (ip, s2) =>
      let '(fp, s3) := frac_part s2 in
      let '(ep, s4) := exp_part s3 in
      match fp, ep with
      | EmptyString, EmptyString =>
          let n := digits_value 0 ip in
          Some (PInt (if neg then (- n)%Z else n), s4)
      | _, _ =>
          Some (PFloat ((if neg then "-" else EmptyString) ++ ip ++ fp ++ ep)%string, s4)
      end
  end.

(** The characters of a string literal after its opening quote, up to the
    closing one. *)
Fixpoint parse_chars (s : string) : option (string * string) :=
  match s with
  | EmptyString => None
  | String c s' =>
      if Ascii.eqb c dquote then Some (EmptyString, s')
      else if Ascii.eqb c "\" then
        match s' with
        | String e s'' =>
            let simple (x : ascii) :=
              match parse_chars s'' with
              | Some (t, rest) => Some (String x t, rest)
              | None => None
              end in
            if Ascii.eqb e dquote then simple dquote
            else if Ascii.eqb e "\" then simple "\"%char
            else if Ascii.eqb e "/" then simple "/"%char
            else if Ascii.eqb e "b" then simple "008"%char
            else if Ascii.eqb e "f" then simple "012"%char
            else if Ascii.eqb e "n" then simple "010"%char
            else if Ascii.eqb e "r" then simple "013"%char
            else if Ascii.eqb e "t" then simple "009"%char
            else if Ascii.eqb e "u" then
              match s'' with
              | String h1 (String h2 (String h3 (String h4 s6))) =>
                  match hex_value h1, hex_value h2, hex_value h3, hex_value h4 with
                  | Some 0%nat, Some 0%nat, Some a, Some b =>
                      match parse_chars s6 with
                      | Some (t, rest) =>
                          Some (String (ascii_of_nat (16 * a + b)) t, rest)
                      | None => None
                      end
                  | _, _, _, _ => None
                  end
              | _ => None
              end
            else None
        | EmptyString => None
        end
      else if (nat_of_ascii c <? 32)%nat then None
      else
        match parse_chars s' with
        | Some (t, rest) => Some (String c t, rest)
        | None => None
        end
  end.

Definition literals : list (string * pyval) :=
  [("null", PNone); ("true", PBool true); ("false", PBool false);
   ("NaN", PFloat "NaN"); ("Infinity", PFloat "Infinity");
   ("-Infinity", PFloat "-Infinity")].

Fixpoint parse_literal (ls : list (string * pyval)) (s : string)
  : option (pyval * string) :=
  match ls with
  | [] => None
  | (name, v) :: ls' =>
      match prefix name s with
      | Some rest => Some (v, rest)
      | None => parse_literal ls' s
      end
  end.

Fixpoint parse_value (fuel : nat) (s : string) : option (pyval * string) :=
  match fuel with
  | O => None
  | S fuel' =>
      match skip_ws s with
      | String c rest =>
          if Ascii.eqb c "{" then
            match skip_ws rest with
            | String d rest' =>
                if Ascii.eqb d "}" then Some (PDict [], rest')
                else parse_members fuel' [] (skip_ws rest)
            | EmptyString => None
            end
          else if Ascii.eqb c "[" then
            match skip_ws rest with
            | String d rest' =>
                if Ascii.eqb d "]" then Some (PList [], rest')
                else parse_elements fuel' [] rest
            | EmptyString => None
            end
          else if Ascii.eqb c dquote then
            match parse_chars rest with
            | Some (t, rest') => Some (PStr t, rest')
            | None => None
            end
          else
            match parse_literal literals (String c rest) with
            | Some r => Some r
            | None => parse_number (String c rest)
            end
      | EmptyString => None
      end
  end
with parse_elements (fuel : nat) (acc : list pyval) (s : string)
  : option (pyval * string) :=
  match fuel with
  | O => None
  | S fuel' =>
      match parse_value fuel' s with
      | Some (v, rest) =>
          match skip_ws rest with
          | String c rest' =>
              if Ascii.eqb c "," then parse_elements fuel' (acc ++ [v]) rest'
              else if Ascii.eqb c "]" then Some (PList (acc ++ [v]), rest')
              else None
          | EmptyString => None
          end
      | None => None
      end
  end
with parse_members (fuel : nat) (acc : list (string * pyval)) (s : string)
  : option (pyval * string) :=
  match fuel with
  | O => None
  | S fuel' =>
      match s with
      | String q s1 =>
          if Ascii.eqb q dquote then
            match parse_chars s1 with
            | Some (k, s2) =>
                match skip_ws s2 with
                | String c s3 =>
                    if Ascii.eqb c ":" then
                      match parse_value fuel' s3 with
                      | Some (v, s4) =>
                          match skip_ws s4 with
                          | String d s5 =>
                              if Ascii.eqb d ","
                              then parse_members fuel' (dict_set k v acc) (skip_ws s5)
                              else if Ascii.eqb d "}"
                              then Some (PDict (dict_set k v acc), s5)
                              else None
                          | EmptyString => None
                          end
                      | None => None
                      end
                    else None
                | EmptyString => None
                end
            | None => None
            end
          else None
      | EmptyString => None
      end
  end.

Definition loads (s : string) : py pyval :=
  match parse_value (2 * String.length s + 2) s with
  | Some (v, rest) =>
      match skip_ws rest with
      | EmptyString => Ok v
      | _ => Exc (mkExn JSONDecodeError "Extra data")
      end
  | None => Exc (mkExn JSONDecodeError "Expecting value")
  end.

Definition hex_digit (n : nat) : ascii :=
  if (n <? 10)%nat then ascii_of_nat (48 + n) else ascii_of_nat (87 + n).

Definition escape_char (c : ascii) : string :=
  let n := nat_of_ascii c in
  if Ascii.eqb c dquote then String "\" (String dquote EmptyString)
  else if Ascii.eqb c "\" then "\\"
  else if (n =? 10)%nat then "\n"
  else if (n =? 13)%nat then "\r"
  else if (n =? 9)%nat then "\t"
  else if (n =? 8)%nat then "\b"
  else if (n =? 12)%nat then "\f"
  else if ((32 <=? n) && (n <=? 126))%nat then String c EmptyString
  else ("\u00" ++ String (hex_digit (n / 16)) (String (hex_digit (n mod 16)) EmptyString))%string.

Fixpoint escape (s : string) : string :=
  match s with
  | String c s' => (escape_char c ++ escape s')%string
  | EmptyString => EmptyString
  end.

Definition quote (s : string) : string :=
  (String dquote (escape s) ++ String dquote EmptyString)%string.

Fixpoint dumps_value (v : pyval) : string :=
  match v with
  | PNone => "null"
  | PBool true => "true"
  | PBool false => "false"
  | PInt n => NilZero.string_of_int (Z.to_int n)
  | PFloat literal => literal
  | PStr s => quote s
  | PList xs =>
      let fix go (xs : list pyval) : string :=
        match xs with
        | [] => EmptyString
        | [x] => dumps_value x
        | x :: xs' => (dumps_value x ++ ", " ++ go xs')%string
        end in
      ("[" ++ go xs ++ "]")%string
  | PDict items =>
      let fix go (items : list (string * pyval)) : string :=
        match items with
        | [] => EmptyString
        | [(k, x)] => (quote k ++ ": " ++ dumps_value x)%string
        | (k, x) :: items' => (quote k ++ ": " ++ dumps_value x ++ ", " ++ go items')%string
        end in
      ("{" ++ go items ++ "}")%string
  end.

#[export] Instance json : Json := {|
  json_loads := loads;
  json_dumps := fun v => Ok (dumps_value v)
|}.

End Codec.


(** ** What the statements speak about *)

(** The ways a configuration file fails to give a server entry: the file
    cannot be opened or read, its text is not JSON, the document has no
    ["mcpServers"] item, or that item has no ["aws-diagram"] item. *)
Inductive bad_config `{Json} `{OS} (path : string) : Prop :=
| file_unavailable (e : exn) :
    files path = Unavailable e -> bad_config path
| malformed_json (text : string) (e : exn) :
    files path = Text text -> json_loads text = Exc e -> bad_config path
| no_servers (text : string) (config : pyval) (e : exn) :
    files path = Text text -> json_loads text = Ok config ->
    getitem config "mcpServers" = Exc e -> bad_config path
| no_diagram_server (text : string) (config servers : pyval) (e : exn) :
    files path = Text text -> json_loads text = Ok config ->
    getitem config "mcpServers" = Ok servers ->
    getitem servers "aws-diagram" = Exc e -> bad_config path.

(** The ["status"] and ["error"] items of an outcome. *)
Definition status_of (outcome : pyval) : option pyval :=
  match outcome with PDict d => dict_get "status" d | _ => None end.

Definition field (name : string) (outcome : pyval) : option pyval :=
  match outcome with PDict d => dict_get name d | _ => None end.

(** The client once [frame] has been delivered to the child [p] and the
    child's output has advanced to [ts]. *)
Definition after_request (self : Diagram.MCPDiagramClient) (p : Popen)
    (frame : string) (ts : list tick) : Diagram.MCPDiagramClient :=
  Diagram.mkClient (Diagram.config_path self) (Diagram.server_config self)
    (Some (set_stdout ts (set_stdin_data (stdin_data p ++ [frame]) p))).

(** The ["id"] item of the document a frame holds. *)
Definition frame_id `{Json} (frame : string) : py pyval :=
  (v <~ json_loads frame ;; getitem v "id")%py.

(** The client after a call [r] went to its session [s]. *)
Definition after_call (self : Terraform.TerraformMCPClient)
    (s : Terraform.ClientSession) (r : Terraform.request)
  : Terraform.TerraformMCPClient :=
  Terraform.mkClient (Terraform.server_path self) (Terraform.server_args self)
                     (Some (Terraform.record_call r s)).

(** The three resource readers and the three tool callers, with the URI or
    tool and the ["type"] each reports. *)
Definition readers
  : list (M Terraform.TerraformMCPClient pyval * string * string) :=
  [(Terraform.get_aws_best_practices,
    "terraform://aws_best_practices", "aws_best_practices");
   (Terraform.get_workflow_guide,
    "terraform://development_workflow", "workflow_guide");
   (Terraform.get_aws_provider_resources,
    "terraform://aws_provider_resources_listing", "aws_provider_resources")].

(** The client after its child has exited with [code] on its own. *)
Definition crashed (code : Z) (self : Diagram.MCPDiagramClient)
  : Diagram.MCPDiagramClient :=
  match Diagram.server_process self with
  | Some p =>
      Diagram.mkClient (Diagram.config_path self) (Diagram.server_config self)
                       (Some (set_exit_status (Some code) p))
  | None => self
  end.

(** ** Fixtures for the examples *)

Module Stub.

(** A child that runs, dies on SIGTERM, reads its input and writes [ticks]. *)
Definition child_writing (ticks : list tick) (closes : bool) : child :=
  mkChild None (Some (-15)%Z) None ticks closes.

Definition process (ticks : list tick) (closes : bool) : Popen :=
  mkPopen ["python"; "-m"; "aws_diagram_mcp_server"] [("PYTHONPATH", ".")]
          None (Some (-15)%Z) None [] ticks closes.

Definition client (ticks : list tick) (closes : bool) : Diagram.MCPDiagramClient :=
  Diagram.mkClient "mcp_config.json" Diagram.default_config
                   (Some (process ticks closes)).

(** A reply with an empty result and the given id. *)
Definition reply (id : Z) : pyval :=
  PDict [("jsonrpc", PStr "2.0"); ("id", PInt id); ("result", PDict [])].

(** The line a server writes for a reply. *)
Definition line_of (reply : pyval) : string :=
  (Codec.dumps_value reply ++ newline)%string.

(** A machine with two ambient variables, a configuration file that is not
    JSON, and children that stay silent. *)
#[export] Instance os : OS := {|
  environ := [("PATH", "/usr/bin"); ("PYTHONPATH", "/opt/lib")];
  spawn := fun _ _ => Ok (child_writing [] false);
  files := fun path =>
    if String.eqb path "mcp_config.json" then Text "command = python"
    else Unavailable (mkExn (OtherException "FileNotFoundError")
                            "No such file or directory")
|}.

(** A session that answers every call with [content]. *)
Definition session_answering (content : list Terraform.content_item)
  : Terraform.ClientSession :=
  Terraform.mkSession false []
    (fun _ => Terraform.Answers []) (fun _ => Terraform.Answers [])
    (fun _ _ => Terraform.Answers content)
    (fun _ _ _ => Terraform.Answers content).

Definition connected (content : list Terraform.content_item)
  : Terraform.TerraformMCPClient :=
  Terraform.mkClient "python3.10" ["-m"; "awslabs.terraform_mcp_server.server"]
                     (Some (session_answering content)).

Definition closed_resource : exn :=
  mkExn (OtherException "ClosedResourceError") EmptyString.

(** A session that answers with nothing to list and [content] to read while
    its context is open, and fails every call once it has been left. *)
Definition session_until_closed (content : list Terraform.content_item)
  : Terraform.ClientSession :=
  let once {A : Type} (a : A) (closed : bool) : Terraform.answer A :=
    if closed then Terraform.Fails closed_resource else Terraform.Answers a in
  Terraform.mkSession false []
    (once []) (once [])
    (fun closed _ => once content closed)
    (fun closed _ _ => once content closed).

(** The package establishes such sessions. *)
Definition mcp : Terraform.Mcp := {|
  Terraform.open_session := fun _ _ =>
    Ok (session_until_closed [Terraform.TextItem "Use remote state."])
|}.

(** The package cannot start the server. *)
Definition mcp_down : Terraform.Mcp := {|
  Terraform.open_session := fun _ _ =>
    Exc (mkExn (OtherException "FileNotFoundError") "python3.10")
|}.

End Stub.

(** ** The widgets (mcp_demo/mcp_arch_widget.py, devgenius_mcp_arch_widget.py) *)

(** [str.lower()] on code points below 256: the letters A to Z and the
    capital letters of Latin-1. *)
Definition lower_char (c : ascii) : ascii :=
  let n := nat_of_ascii c in
  if (((65 <=? n) && (n <=? 90))
      || ((192 <=? n) && (n <=? 222) && negb (n =? 215)))%nat
  then ascii_of_nat (n + 32)
  else c.

Fixpoint str_lower (s : string) : string :=
  match s with
  | EmptyString => EmptyString
  | String c s' => String (lower_char c) (str_lower s')
  end.

Fixpoint starts_with (p s : string) : bool :=
  match p, s with
  | EmptyString, _ => true
  | String a p', String b s' => Ascii.eqb a b && starts_with p' s'
  | String _ _, EmptyString => false
  end.

(** [sub in s] for two strings. *)
Fixpoint contains (sub s : string) : bool :=
  starts_with sub s ||
  match s with
  | EmptyString => false
  | String _ s' => contains sub s'
  end.

(** [for keyword, service in table.items(): if keyword in text:
       components.append(service)] *)
Definition scan (table : list (string * string)) (text : string) : list string :=
  map snd (filter (fun entry => contains (fst entry) text) table).

(** [list(set(xs))]: the distinct items of [xs], in an order the
    interpreter picks. *)
Class PySet : Type := {
  list_set : list string -> list string;
  list_set_In : forall xs x, In x (list_set xs) <-> In x xs;
  list_set_NoDup : forall xs, NoDup (list_set xs)
}.

Module Widget.

(** Both widget classes hold the client and a flag. *)
Record MCPArchitectureWidget : Type := mkWidget {
  mcp_client : Diagram.MCPDiagramClient;
  is_server_running : bool
}.

Definition __init__ `{Json} `{OS} : py MCPArchitectureWidget :=
  (client <~ Diagram.__init__ "mcp_config.json" ;;
   Ok (mkWidget client false))%py.

(** Run an operation of the client on [self.mcp_client]. *)
Definition on_client {A : Type} (m : M Diagram.MCPDiagramClient A)
  : M MCPArchitectureWidget A :=
  fun self =>
    match m (mcp_client self) with
    | Ret a c => Ret a (mkWidget c (is_server_running self))
    | Raise e c => Raise e (mkWidget c (is_server_running self))
    | Hang => Hang
    end.

Definition set_is_server_running (b : bool) : M MCPArchitectureWidget unit :=
  fun self => Ret tt (mkWidget (mcp_client self) b).

Definition _ensure_server_running `{OS} : M MCPArchitectureWidget bool :=
  (self <- get ;;
   (if is_server_running self then ret tt
    else started <- on_client Diagram.start_server ;;
         set_is_server_running started) ;;;
   self' <- get ;;
   ret (is_server_running self'))%py.

Definition cleanup : M MCPArchitectureWidget unit :=
  on_client Diagram.stop_server.

Definition aws_services : list (string * string) :=
  [("api gateway", "APIGateway");
   ("lambda", "Lambda");
   ("dynamodb", "DynamoDB");
   ("rds", "RDS");
   ("s3", "S3");
   ("cloudfront", "CloudFront");
   ("ec2", "EC2");
   ("ecs", "ECS");
   ("eks", "EKS");
   ("sqs", "SQS");
   ("sns", "SNS");
   ("cloudwatch", "CloudWatch")].

(** [MCPArchitectureWidget._parse_components] *)
Definition _parse_components (requirements : string) : list string :=
  scan aws_services (str_lower requirements).

Definition aws_services_map : list (string * string) :=
  [("lambda", "Lambda");
   ("ec2", "EC2");
   ("ecs", "ECS");
   ("eks", "EKS");
   ("fargate", "Fargate");
   ("elastic beanstalk", "ElasticBeanstalk");
   ("s3", "S3");
   ("ebs", "EBS");
   ("efs", "EFS");
   ("fsx", "FSx");
   ("dynamodb", "DynamoDB");
   ("rds", "RDS");
   ("aurora", "Aurora");
   ("redshift", "Redshift");
   ("neptune", "Neptune");
   ("documentdb", "DocumentDB");
   ("elasticache", "ElastiCache");
   ("api gateway", "APIGateway");
   ("cloudfront", "CloudFront");
   ("route 53", "Route53");
   ("vpc", "VPC");
   ("load balancer", "ELB");
   ("application load balancer", "ApplicationLoadBalancer");
   ("network load balancer", "NetworkLoadBalancer");
   ("sqs", "SQS");
   ("sns", "SNS");
   ("kinesis", "Kinesis");
   ("eventbridge", "EventBridge");
   ("cognito", "Cognito");
   ("iam", "IAM");
   ("secrets manager", "SecretsManager");
   ("kms", "KMS");
   ("waf", "WAF");
   ("cloudwatch", "CloudWatch");
   ("cloudtrail", "CloudTrail");
   ("x-ray", "XRay");
   ("athena", "Athena");
   ("glue", "Glue");
   ("emr", "EMR");
   ("sagemaker", "Sagemaker");
   ("bedrock", "Bedrock");
   ("rekognition", "Rekognition");
   ("comprehend", "Comprehend")].

Definition default_components : list string :=
  ["APIGateway"; "Lambda"; "DynamoDB"].

(** [DevGeniusMCPArchWidget._parse_aws_components] *)
Definition _parse_aws_components `{PySet} (solution_text : string) : list string :=
  let components := scan aws_services_map (str_lower solution_text) in
  let components :=
    match components with
    | [] => default_components
    | _ :: _ => components
    end in
  list_set components.

End Widget.

(** ** The demo interface (terraform_demo_live.py) *)

Module Demo.
Import Terraform.

Definition samples_dir : string :=
  "/Users/muhammadali/genai-chat-monitoring/Terraform_MCP_Demo/samples".

(** [d[k] = v] for a value [d]. *)
Definition setitem (d : pyval) (k : string) (v : pyval) : py pyval :=
  match d with
  | PDict items => Ok (PDict (dict_set k v items))
  | _ => Exc (mkExn TypeError "object does not support item assignment")
  end.

(** The body of a response is the value [jsonify] is given; [now] is
    [datetime.now().isoformat()]. *)
Definition error_response (e : exn) (now : string) : pyval :=
  PDict [("status", PStr "error");
         ("error", PStr (exn_str e));
         ("timestamp", PStr now)].

(** The body the routes share:
    [try: result = run_async_function(call); result["timestamp"] = now;
          result["note"] = note; return jsonify(result)
     except Exception as e: return jsonify(error)].
    A route that never answers gives [None]. *)
Definition respond (call : res TerraformMCPClient pyval) (note : option string)
    (now : string) : option pyval :=
  match run_async_function call with
  | Ret result _ =>
      Some match (stamped <~ setitem result "timestamp" (PStr now) ;;
                  match note with
                  | Some text => setitem stamped "note" (PStr text)
                  | None => Ok stamped
                  end)%py with
           | Ok response => response
           | Exc e => error_response e now
           end
  | Raise e _ => Some (error_response e now)
  | Hang => None
  end.

Definition mcp_tools `{Mcp} : string -> option pyval :=
  respond get_available_tools_live None.

Definition mcp_resources `{Mcp} : string -> option pyval :=
  respond get_available_resources_live None.

Definition best_practices `{Mcp} : string -> option pyval :=
  respond get_live_best_practices None.

Definition workflow_guide `{Mcp} : string -> option pyval :=
  respond get_live_workflow_guide None.

Definition terraform_init `{Json} `{Mcp} : string -> option pyval :=
  respond (execute_live_terraform_command "init" samples_dir None None)
          (Some "Executed via real MCP server stdio protocol").

Definition terraform_plan `{Json} `{Mcp} : string -> option pyval :=
  respond (execute_live_terraform_command "plan" samples_dir None None)
          (Some "Executed via real MCP server stdio protocol").

Definition checkov_scan `{Json} `{Mcp} : string -> option pyval :=
  respond (run_live_checkov_scan samples_dir "terraform")
          (Some "Security scan via real MCP server - detects actual vulnerabilities").

(** [request.args.get(name, default)] *)
Definition arg (given : option string) (default : string) : string :=
  match given with Some v => v | None => default end.

Definition search_aws_provider_docs `{Json} `{Mcp}
    (asset_name asset_type : option string) : string -> option pyval :=
  respond (search_live_aws_provider_docs (arg asset_name "aws_s3_bucket")
                                         (arg asset_type "resource"))
          (Some "Live AWS provider documentation search via real MCP server").

Definition aws_provider_resources `{Mcp} : string -> option pyval :=
  respond get_live_aws_provider_resources
          (Some "AWS provider resources from real MCP server").

Definition mcp_server_info `{Mcp} (now : string) : option pyval :=
  match run_async_function get_available_tools_live with
  | Ret tools _ =>
      match run_async_function get_available_resources_live with
      | Ret resources _ =>
          Some match (tool_count <~ dict_get_method tools "tool_count" (PInt 0) ;;
                      resource_count <~ dict_get_method resources "resource_count" (PInt 0) ;;
                      Ok (PDict [("status", PStr "success");
                                 ("server_type", PStr "AWS Terraform MCP Server");
                                 ("connection", PStr "live_stdio_protocol");
                                 ("tools", tools);
                                 ("resources", resources);
                                 ("summary",
                                  PDict [("tool_count", tool_count);
                                         ("resource_count", resource_count);
                                         ("connection_type", PStr "Real MCP stdio protocol");
                                         ("server_source", PStr "Official AWS Labs")]);
                                 ("timestamp", PStr now)]))%py with
               | Ok response => response
               | Exc e => error_response e now
               end
      | Raise e _ => Some (error_response e now)
      | Hang => None
      end
  | Raise e _ => Some (error_response e now)
  | Hang => None
  end.

(** The routes that call the server, at one time and for one query. *)
Definition routes `{Json} `{Mcp} (asset_name asset_type : option string)
    (now : string) : list (option pyval) :=
  [mcp_server_info now; mcp_tools now; mcp_resources now; best_practices now;
   workflow_guide now; terraform_init now; terraform_plan now;
   checkov_scan now; search_aws_provider_docs asset_name asset_type now;
   aws_provider_resources now].

(** The routes that relay one call of the module, each with its call: all
    of [routes] but [mcp_server_info], which makes two calls. *)
Definition relayed `{Json} `{Mcp} (asset_name asset_type : option string)
  : list (res TerraformMCPClient pyval * (string -> option pyval)) :=
  [(get_available_tools_live, mcp_tools);
   (get_available_resources_live, mcp_resources);
   (get_live_best_practices, best_practices);
   (get_live_workflow_guide, workflow_guide);
   (execute_live_terraform_command "init" samples_dir None None, terraform_init);
   (execute_live_terraform_command "plan" samples_dir None None, terraform_plan);
   (run_live_checkov_scan samples_dir "terraform", checkov_scan);
   (search_live_aws_provider_docs (arg asset_name "aws_s3_bucket")
                                  (arg asset_type "resource"),
    search_aws_provider_docs asset_name asset_type);
   (get_live_aws_provider_resources, aws_provider_resources)].

End Demo.

(** An operation that leaves a client that has a session with a session. *)
Definition keeps_session {A : Type} (body : M Terraform.TerraformMCPClient A)
  : Prop :=
  forall self,
    Terraform.session self <> None ->
    match body self with
    | Ret _ self' | Raise _ self' => Terraform.session self' <> None
    | Hang => True
    end.

(** The session a client is left with, if any, has been closed. *)
Definition left_closed {A : Type} (r : res Terraform.TerraformMCPClient A)
  : Prop :=
  match r with
  | Ret _ self | Raise _ self =>
      match Terraform.session self with
      | Some s => Terraform.closed s = true
      | None => True
      end
  | Hang => True
  end.

(** The wrappers of the module, for given arguments. *)
Definition live_wrappers `{Json} `{Terraform.Mcp}
    (command working_directory framework asset_name asset_type : string)
    (variables : option (list (string * pyval))) (aws_region : option string)
  : list (res Terraform.TerraformMCPClient pyval) :=
  [Terraform.get_live_best_practices;
   Terraform.get_live_workflow_guide;
   Terraform.execute_live_terraform_command command working_directory
                                            variables aws_region;
   Terraform.run_live_checkov_scan working_directory framework;
   Terraform.search_live_aws_provider_docs asset_name asset_type;
   Terraform.get_live_aws_provider_resources;
   Terraform.get_available_tools_live;
   Terraform.get_available_resources_live].

(** Whatever the operation returns has a status. *)
Definition gives_status (body : M Terraform.TerraformMCPClient pyval) : Prop :=
  forall self outcome self',
    body self = Ret outcome self' ->
    status_of outcome = Some (PStr "success") \/
    status_of outcome = Some (PStr "error").

(** An outcome is a dict whose ["status"] is ["success"] or ["error"]. *)
Definition has_status (outcome : pyval) : Prop :=
  status_of outcome = Some (PStr "success") \/
  status_of outcome = Some (PStr "error").

(** ** More fixtures *)

Module Fixture.

(** A server entry of a configuration file, and the file that holds it. *)
Definition entry : pyval :=
  PDict [("command", PStr "uvx");
         ("args", PList [PStr "aws-diagram-mcp-server"]);
         ("env", PDict [("AWS_REGION", PStr "eu-west-1")])].

Definition config_text : string :=
  Codec.dumps_value (PDict [("mcpServers", PDict [("aws-diagram", entry)])]).

(** A machine whose configuration file holds [entry] and whose children
    answer three requests and then close their output. *)
Definition os : OS := {|
  environ := [("PATH", "/usr/bin")];
  spawn := fun _ _ =>
    Ok (Stub.child_writing [Emit (Stub.line_of (Stub.reply 1));
                            Emit (Stub.line_of (Stub.reply 1));
                            Emit (Stub.line_of (Stub.reply 1))] true);
  files := fun path =>
    if String.eqb path "mcp_config.json" then Text config_text
    else Unavailable (mkExn (OtherException "FileNotFoundError")
                            "No such file or directory")
|}.

(** A running child whose input pipe is broken. *)
Definition broken_pipe : exn :=
  mkExn (OtherException "BrokenPipeError") "[Errno 32] Broken pipe".

Definition deaf_client : Diagram.MCPDiagramClient :=
  Diagram.mkClient "mcp_config.json" Diagram.default_config
    (Some (mkPopen ["python"] [] None (Some (-15)%Z) (Some broken_pipe) []
                   [Emit (Stub.line_of (Stub.reply 1))] true)).

(** Two tools of a server, the first with an input schema and the second
    without one. *)
Definition plan_tool : Terraform.Tool :=
  Terraform.mkTool (PStr "ExecuteTerraformCommand")
                   (PStr "Execute Terraform workflow commands")
                   (Some (PDict [("type", PStr "object");
                                 ("required", PList [PStr "command"])])).

Definition scan_tool : Terraform.Tool :=
  Terraform.mkTool (PStr "RunCheckovScan") PNone None.

Definition no_such_method : exn :=
  mkExn (OtherException "McpError") "Method not found".

(** A session that lists the two tools, has nothing to read, and fails
    the listing of its resources. *)
Definition listing_session : Terraform.ClientSession :=
  Terraform.mkSession false []
    (fun _ => Terraform.Answers [plan_tool; scan_tool])
    (fun _ => Terraform.Fails no_such_method)
    (fun _ _ => Terraform.Answers [])
    (fun _ _ _ => Terraform.Answers []).

Definition mcp : Terraform.Mcp := {|
  Terraform.open_session := fun _ _ => Ok listing_session
|}.

End Fixture.

(** A set that lists its items in the order of their first occurrence. *)
#[export, refine] Instance first_seen_set : PySet := {|
  list_set := fun xs => rev (nodup string_dec (rev xs))
|}.
Proof.
  - intros xs x. rewrite <- in_rev, nodup_In, <- in_rev. reflexivity.
  - intros xs. apply NoDup_rev, NoDup_nodup.
Defined.

(** * Properties *)

(** ** Dicts *)

Section DictFacts.
Context {V : Type}.

Lemma dict_get_set_same (k : string) (v : V) (d : list (string * V)) :
  dict_get k (dict_set k v d) = Some v.
Proof.
  induction d as [| [k' v'] d IH]; simpl.
  - now rewrite String.eqb_refl.
  - destruct (String.eqb k k') eqn:E; simpl.
    + now rewrite String.eqb_refl.
    + now rewrite E.
Qed.

Lemma dict_get_set_other (k k' : string) (v : V) (d : list (string * V)) :
  k <> k' -> dict_get k (dict_set k' v d) = dict_get k d.
Proof.
  intros Hne.
  assert (Hk : String.eqb k k' = false) by now apply String.eqb_neq.
  induction d as [| [k0 v0] d IH]; simpl.
  - now rewrite Hk.
  - destruct (String.eqb k' k0) eqn:E; simpl.
    + apply String.eqb_eq in E. subst k0. now rewrite Hk.
    + destruct (String.eqb k k0); [reflexivity | exact IH].
Qed.

(** [{**a, **b}[k]] is [b[k]] when [b] has [k], and [a[k]] when it has not. *)
Lemma dict_get_merge (k : string) (a b : list (string * V)) :
  keys_unique b = true ->
  dict_get k (dict_merge a b) =
  match dict_get k b with
  | Some v => Some v
  | None => dict_get k a
  end.
Proof.
  unfold dict_merge. revert a.
  induction b as [| [k' v'] b IH]; intros a Hb; simpl in *.
  - reflexivity.
  - destruct (dict_get k' b) eqn:Hk'; [discriminate |].
    rewrite (IH _ Hb). destruct (String.eqb k k') eqn:E.
    + apply String.eqb_eq in E. subst k'. rewrite Hk'.
      apply dict_get_set_same.
    + apply String.eqb_neq in E.
      destruct (dict_get k b); [reflexivity | now apply dict_get_set_other].
Qed.

End DictFacts.

Lemma dict_get_str_items (k : string) (d : list (string * string)) :
  dict_get k (str_items d) = option_map PStr (dict_get k d).
Proof.
  induction d as [| [k' v] d IH]; simpl; [reflexivity |].
  destruct (String.eqb k k'); [reflexivity | exact IH].
Qed.

Lemma env_strings_items (env : list (string * pyval)) (env_s : list (string * string)) :
  env_strings env = Ok env_s -> env = str_items env_s.
Proof.
  revert env_s.
  induction env as [| [k v] env IH]; intros env_s Henv; simpl in Henv.
  - now inversion Henv.
  - destruct v; try discriminate.
    destruct (env_strings env) as [rest |]; simpl in Henv; [| discriminate].
    inversion Henv; subst. simpl. now rewrite <- (IH rest).
Qed.

(** ** Loading the configuration *)

Section Config.
Context {J : Json} {O : OS}.

Lemma config_lookup_fails (path : string) :
  bad_config path ->
  exists e,
    (text <~ read_file (files path) ;;
     config <~ json_loads text ;;
     servers <~ getitem config "mcpServers" ;;
     getitem servers "aws-diagram")%py = Exc e.
Proof.
  intros [e Hf | text e Hf Hj | text config e Hf Hj Hs
          | text config servers e Hf Hj Hs Hd];
    exists e; rewrite Hf; simpl; try rewrite Hj; simpl;
    try rewrite Hs; simpl; try rewrite Hd; reflexivity.
Qed.

(** Whatever the file holds, [_load_config] returns a configuration. *)
Lemma load_config_never_raises (path : string) :
  (exists config, Diagram._load_config path = Ok config) /\
  (exists config, Lightweight._load_config path = Ok config).
Proof.
  unfold Diagram._load_config, Lightweight._load_config, py_try.
  split;
    match goal with
    | |- exists c, match ?m with _ => _ end = _ =>
        destruct m as [v | e]; eexists; reflexivity
    end.
Qed.

(** C10.  When the configuration file is absent or unreadable, is not JSON,
    or lacks the ["mcpServers"] or the ["aws-diagram"] item, [_load_config]
    of both demo clients returns the built-in default (command ["python"],
    the arguments that name the server module, [PYTHONPATH] set to ["."])
    and does not raise; constructing the client then succeeds with that
    default. *)
Theorem load_config_falls_back (path : string) :
  bad_config path ->
  Diagram._load_config path = Ok Diagram.default_config /\
  Lightweight._load_config path = Ok Lightweight.default_config /\
  Diagram.__init__ path
    = Ok (Diagram.mkClient path Diagram.default_config None) /\
  Lightweight.__init__ path
    = Ok (Lightweight.mkClient path Lightweight.default_config) /\
  getitem Diagram.default_config "command" = Ok (PStr "python") /\
  getitem Diagram.default_config "args"
    = Ok (PList [PStr "-m"; PStr "aws_diagram_mcp_server"]) /\
  getitem Diagram.default_config "env"
    = Ok (PDict [("PYTHONPATH", PStr ".")]) /\
  getitem Lightweight.default_config "command" = Ok (PStr "python") /\
  getitem Lightweight.default_config "args"
    = Ok (PList [PStr "-m"; PStr "direct_diagram_generator"]) /\
  getitem Lightweight.default_config "env"
    = Ok (PDict [("PYTHONPATH", PStr ".")]).
Proof.
  intros Hbad. destruct (config_lookup_fails path Hbad) as [e He].
  assert (HD : Diagram._load_config path = Ok Diagram.default_config).
  { unfold Diagram._load_config. now rewrite He. }
  assert (HL : Lightweight._load_config path = Ok Lightweight.default_config).
  { unfold Lightweight._load_config. now rewrite He. }
  unfold Diagram.__init__, Lightweight.__init__.
  rewrite HD, HL. repeat split; reflexivity.
Qed.

End Config.

(** The file of the stub machine is not JSON. *)
Lemma load_config_falls_back_witness :
  @bad_config Codec.json Stub.os "mcp_config.json" /\
  @Diagram._load_config Codec.json Stub.os "mcp_config.json"
    = Ok Diagram.default_config.
Proof.
  assert (Hbad : @bad_config Codec.json Stub.os "mcp_config.json").
  { apply (@malformed_json Codec.json Stub.os "mcp_config.json"
             "command = python" (mkExn JSONDecodeError "Expecting value"));
      reflexivity. }
  split; [exact Hbad |].
  exact (proj1 (@load_config_falls_back Codec.json Stub.os "mcp_config.json" Hbad)).
Defined.

(** ** Starting the server *)

Section Start.
Context {O : OS}.

(** [start_server] either spawns a child from the configured command and the
    merged environment, or changes nothing and returns [False]. *)
Lemma start_server_cases (self : Diagram.MCPDiagramClient) :
  (exists command args cmd env cmd_s merged_env process,
      getitem (Diagram.server_config self) "command" = Ok command /\
      getitem (Diagram.server_config self) "args" = Ok args /\
      list_plus [command] args = Ok cmd /\
      dict_get_method (Diagram.server_config self) "env" (PDict []) = Ok env /\
      cmd_strings cmd = Ok cmd_s /\
      merge_environ env = Ok merged_env /\
      Popen_new cmd_s merged_env = Ok process /\
      Diagram.start_server self
      = Ret (match poll process with None => true | Some _ => false end)
            (Diagram.mkClient (Diagram.config_path self)
                              (Diagram.server_config self) (Some process)))
  \/ Diagram.start_server self = Ret false self.
Proof.
  unfold Diagram.start_server, try_except, bind, get, lift, ret,
    Diagram.set_server_process.
  destruct (getitem (Diagram.server_config self) "command") as [command |] eqn:H1;
    [| now right].
  destruct (getitem (Diagram.server_config self) "args") as [args |] eqn:H2;
    [| now right].
  destruct (list_plus [command] args) as [cmd |] eqn:H3; [| now right].
  destruct (dict_get_method (Diagram.server_config self) "env" (PDict []))
    as [env |] eqn:H4; [| now right].
  destruct (cmd_strings cmd) as [cmd_s |] eqn:H5; [| now right].
  destruct (merge_environ env) as [merged_env |] eqn:H6; [| now right].
  destruct (Popen_new cmd_s merged_env) as [process |] eqn:H7; [| now right].
  left. exists command, args, cmd, env, cmd_s, merged_env, process.
  repeat (split; [assumption || reflexivity |]).
  destruct (poll process); reflexivity.
Qed.

Lemma Popen_new_env (cmd : list string) (env : list (string * pyval)) (p : Popen) :
  Popen_new cmd env = Ok p ->
  popen_args p = cmd /\ str_items (popen_env p) = env.
Proof.
  unfold Popen_new. intros Hp.
  destruct (env_strings env) as [env_s |] eqn:He; simpl in Hp; [| discriminate].
  destruct (spawn cmd env_s) as [ch |]; simpl in Hp; [| discriminate].
  inversion Hp; subst; simpl. split; [reflexivity |].
  symmetry. now apply env_strings_items.
Qed.

(** C6.  The child [start_server] starts runs in the caller's environment
    map merged over the ambient one: a key of the caller's map has the
    caller's value, also when the ambient environment has the key; any other
    key has its ambient value, or none. *)
Theorem start_server_merges_environment
    (self self' : Diagram.MCPDiagramClient) (started : bool) (p : Popen)
    (env : list (string * pyval)) :
  Diagram.start_server self = Ret started self' ->
  Diagram.server_process self' = Some p ->
  started = true \/ Diagram.server_process self = None ->
  dict_get_method (Diagram.server_config self) "env" (PDict []) = Ok (PDict env) ->
  keys_unique env = true ->
  forall k : string,
    option_map PStr (dict_get k (popen_env p)) =
    match dict_get k env with
    | Some v => Some v
    | None => option_map PStr (dict_get k environ)
    end.
Proof.
  intros Hrun Hp Hnew Henv Huniq k.
  destruct (start_server_cases self)
    as [(command & args & cmd & env' & cmd_s & merged & process
         & _ & _ & _ & Henv' & _ & Hmerge & Hpopen & Hstart) | Hstart];
    rewrite Hstart in Hrun; inversion Hrun; subst; clear Hrun.
  - simpl in Hp. inversion Hp; subst p; clear Hp.
    rewrite Henv in Henv'. inversion Henv'; subst env'; clear Henv'.
    simpl in Hmerge. inversion Hmerge; subst merged; clear Hmerge.
    destruct (Popen_new_env _ _ _ Hpopen) as [_ Hitems].
    rewrite <- dict_get_str_items, Hitems, dict_get_merge by assumption.
    now rewrite dict_get_str_items.
  - destruct Hnew as [Hfalse | Hnone]; [discriminate |].
    rewrite Hnone in Hp. discriminate.
Qed.

End Start.

(** On the stub machine the default configuration overrides the ambient
    [PYTHONPATH] and keeps the ambient [PATH]. *)
Lemma start_server_merges_environment_witness :
  let self := Diagram.mkClient "mcp_config.json" Diagram.default_config None in
  exists self' p,
    @Diagram.start_server Stub.os self = Ret true self' /\
    Diagram.server_process self' = Some p /\
    dict_get "PYTHONPATH" (popen_env p) = Some "." /\
    dict_get "PATH" (popen_env p) = Some "/usr/bin" /\
    (forall k : string,
        option_map PStr (dict_get k (popen_env p)) =
        match dict_get k [("PYTHONPATH", PStr ".")] with
        | Some v => Some v
        | None => option_map PStr (dict_get k (@environ Stub.os))
        end).
Proof.
  eexists. eexists.
  split; [reflexivity |]. split; [reflexivity |].
  split; [reflexivity |]. split; [reflexivity |].
  eapply (@start_server_merges_environment Stub.os
            (Diagram.mkClient "mcp_config.json" Diagram.default_config None)
            _ true _ [("PYTHONPATH", PStr ".")]);
    [reflexivity | reflexivity | left; reflexivity | reflexivity | reflexivity].
Defined.

(** ** Stopping the server *)

Lemma stop_server_never_raises (self : Diagram.MCPDiagramClient) (e : exn)
    (s : Diagram.MCPDiagramClient) :
  Diagram.stop_server self <> Raise e s.
Proof.
  unfold Diagram.stop_server, bind, Diagram.on_process, terminate, wait, ret.
  destruct (Diagram.server_process self) as [p |] eqn:Hp; [| discriminate].
  destruct (exit_status p) as [code |] eqn:Hx; simpl.
  - rewrite Hx. discriminate.
  - destruct (on_sigterm p); discriminate.
Qed.

(** Once [stop_server] has returned, the child has exited. *)
Lemma stop_server_reaps (self self1 : Diagram.MCPDiagramClient) :
  Diagram.stop_server self = Ret tt self1 ->
  match Diagram.server_process self1 with
  | Some p => exists code, exit_status p = Some code
  | None => Diagram.server_process self = None
  end.
Proof.
  unfold Diagram.stop_server, bind, Diagram.on_process, terminate, wait, ret.
  destruct (Diagram.server_process self) as [p |] eqn:Hp.
  - destruct (exit_status p) as [code |] eqn:Hx; simpl.
    + rewrite Hx. intros Hr. inversion Hr; subst; simpl. eauto.
    + destruct (on_sigterm p) as [code |]; [| discriminate].
      intros Hr. inversion Hr; subst; simpl. eauto.
  - intros Hr. inversion Hr; subst. now rewrite Hp.
Qed.

(** C9.  After a call of [stop_server] that returned, a second call changes
    nothing and returns; and no call of [stop_server] raises, whatever the
    state of the child (never started, running, or exited already). *)
Theorem stop_server_twice (self self1 : Diagram.MCPDiagramClient) :
  Diagram.stop_server self = Ret tt self1 ->
  Diagram.stop_server self1 = Ret tt self1 /\
  (forall (self0 s : Diagram.MCPDiagramClient) (e : exn),
      Diagram.stop_server self0 <> Raise e s).
Proof.
  intros Hfirst. split; [| intros; apply stop_server_never_raises].
  pose proof (stop_server_reaps _ _ Hfirst) as Hreaped.
  unfold Diagram.stop_server, bind, Diagram.on_process, terminate, wait, ret.
  destruct (Diagram.server_process self1) as [p |] eqn:Hp; [| reflexivity].
  destruct Hreaped as [code Hx]. rewrite Hx; simpl. rewrite Hx.
  destruct self1 as [path config process]; simpl in *. now subst.
Qed.

(** A running child that dies on SIGTERM: the first call reaps it. *)
Lemma stop_server_twice_witness :
  let stopped :=
    Diagram.mkClient "mcp_config.json" Diagram.default_config
                     (Some (set_exit_status (Some (-15)%Z) (Stub.process [] false))) in
  Diagram.stop_server (Stub.client [] false) = Ret tt stopped /\
  Diagram.stop_server stopped = Ret tt stopped.
Proof.
  split; [reflexivity |].
  exact (proj1 (stop_server_twice (Stub.client [] false) _ eq_refl)).
Defined.

(** ** Sending a request *)

Lemma readline_from_quiet (n : nat) (ts : list tick) (closes : bool) :
  readline_from (repeat Quiet n ++ ts) closes = readline_from ts closes.
Proof. induction n as [| n IH]; simpl; [reflexivity | exact IH]. Qed.

Section Send.
Context {J : Json}.

(** A child that is not there, or has exited, is not written to. *)
Lemma send_request_not_running (self : Diagram.MCPDiagramClient)
    (method : string) (params : pyval) :
  match Diagram.server_process self with
  | None => True
  | Some p => poll p <> None
  end ->
  Diagram.send_request method params self
  = Ret (error_dict "Server not running") self.
Proof.
  unfold Diagram.send_request.
  destruct (Diagram.server_process self) as [p |]; [| reflexivity].
  destruct (poll p); [reflexivity | intros Hp; now elim Hp].
Qed.

(** What [send_request] does with a running child whose input pipe works:
    it writes the frame, reads one line and returns what the line decodes
    to. *)
Lemma send_request_live (self : Diagram.MCPDiagramClient) (p : Popen)
    (method : string) (params : pyval) (dumped : string) :
  Diagram.server_process self = Some p ->
  poll p = None ->
  stdin_fault p = None ->
  json_dumps (Diagram.make_request method params) = Ok dumped ->
  Diagram.send_request method params self =
  match readline_from (stdout p) (stdout_closes p) with
  | Ret line ts =>
      let self' := after_request self p (dumped ++ newline) ts in
      if str_truthy line then
        match json_loads (strip line) with
        | Ok response => Ret response self'
        | Exc e => Ret (error_dict (exn_str e)) self'
        end
      else Ret (error_dict "No response from server") self'
  | Raise e ts =>
      Ret (error_dict (exn_str e)) (after_request self p (dumped ++ newline) ts)
  | Hang => Hang
  end.
Proof.
  intros Hp Hpoll Hfault Hdump.
  unfold Diagram.send_request. rewrite Hp, Hpoll.
  unfold try_except, bind, lift. rewrite Hdump.
  unfold Diagram.on_process at 1. rewrite Hp.
  unfold stdin_write. rewrite Hfault.
  unfold Diagram.on_process at 1; simpl.
  unfold stdin_flush; simpl. rewrite Hfault.
  unfold Diagram.on_process; simpl.
  unfold stdout_readline; simpl.
  destruct (readline_from (stdout p) (stdout_closes p)) as [line ts | e ts |];
    simpl; try reflexivity.
  destruct (str_truthy line); [| reflexivity].
  destruct (json_loads (strip line)); reflexivity.
Qed.


End Send.

Section Correlation.
Context {J : Json}.

(** C1, as the code has it.  With a running child whose input pipe works,
    [send_request] returns what the first line the child emits decodes to,
    after any silence, and whatever ["id"] that document carries: the id of
    the reply is not compared with the id of the request. *)
Theorem send_request_returns_next_line
    (self : Diagram.MCPDiagramClient) (p : Popen) (method : string)
    (params : pyval) (dumped line : string) (silence : nat) (ts : list tick)
    (response : pyval) :
  Diagram.server_process self = Some p ->
  poll p = None ->
  stdin_fault p = None ->
  json_dumps (Diagram.make_request method params) = Ok dumped ->
  stdout p = repeat Quiet silence ++ Emit line :: ts ->
  str_truthy line = true ->
  json_loads (strip line) = Ok response ->
  Diagram.send_request method params self
  = Ret response (after_request self p (dumped ++ newline) ts).
Proof.
  intros Hp Hpoll Hfault Hdump Hout Hline Hresp.
  rewrite (send_request_live self p method params dumped Hp Hpoll Hfault Hdump).
  rewrite Hout, readline_from_quiet. simpl.
  now rewrite Hline, Hresp.
Qed.

(** C2, as the code has it.  The request [send_request] builds carries the
    id 1 whatever the method and the parameters, and it is the frame of that
    request that reaches the child: two requests of one session carry the
    same id. *)
Theorem send_request_writes_id_1
    (self self' : Diagram.MCPDiagramClient) (p : Popen) (method : string)
    (params : pyval) (dumped : string) (outcome : pyval) :
  Diagram.server_process self = Some p ->
  poll p = None ->
  stdin_fault p = None ->
  json_dumps (Diagram.make_request method params) = Ok dumped ->
  Diagram.send_request method params self = Ret outcome self' ->
  getitem (Diagram.make_request method params) "id" = Ok (PInt 1) /\
  exists p',
    Diagram.server_process self' = Some p' /\
    stdin_data p' = stdin_data p ++ [(dumped ++ newline)%string].
Proof.
  intros Hp Hpoll Hfault Hdump Hrun.
  split; [reflexivity |].
  rewrite (send_request_live self p method params dumped Hp Hpoll Hfault Hdump)
    in Hrun.
  destruct (readline_from (stdout p) (stdout_closes p)) as [line ts | e ts |];
    [| | discriminate].
  - simpl in Hrun. destruct (str_truthy line);
      [destruct (json_loads (strip line)) |];
      inversion Hrun; subst; eexists; split; reflexivity.
  - inversion Hrun; subst; eexists; split; reflexivity.
Qed.

(** C4, as the code has it.  [send_request] has no timeout.  With a running
    child whose input pipe works, and for every length of the child's
    silence: the call returns the first line the child then emits, decoded,
    however late; it returns the "No response from server" error when the
    child closes its output instead; and it never returns when the child
    stays silent with its output open. *)
Theorem send_request_waits
    (self : Diagram.MCPDiagramClient) (p : Popen) (method : string)
    (params : pyval) (dumped : string) (silence : nat) :
  Diagram.server_process self = Some p ->
  poll p = None ->
  stdin_fault p = None ->
  json_dumps (Diagram.make_request method params) = Ok dumped ->
  (forall (line : string) (ts : list tick) (response : pyval),
      stdout p = repeat Quiet silence ++ Emit line :: ts ->
      str_truthy line = true ->
      json_loads (strip line) = Ok response ->
      Diagram.send_request method params self
      = Ret response (after_request self p (dumped ++ newline) ts)) /\
  (stdout p = repeat Quiet silence -> stdout_closes p = true ->
   Diagram.send_request method params self
   = Ret (error_dict "No response from server")
         (after_request self p (dumped ++ newline) [])) /\
  (stdout p = repeat Quiet silence -> stdout_closes p = false ->
   Diagram.send_request method params self = Hang).
Proof.
  intros Hp Hpoll Hfault Hdump.
  pose proof (send_request_live self p method params dumped Hp Hpoll Hfault Hdump)
    as Hlive.
  repeat split.
  - intros line ts response Hout Hline Hresp.
    rewrite Hlive, Hout, readline_from_quiet. simpl.
    now rewrite Hline, Hresp.
  - intros Hout Hcloses.
    rewrite Hlive, Hout, <- (app_nil_r (repeat Quiet silence)),
      readline_from_quiet, Hcloses.
    reflexivity.
  - intros Hout Hcloses.
    rewrite Hlive, Hout, <- (app_nil_r (repeat Quiet silence)),
      readline_from_quiet, Hcloses.
    reflexivity.
Qed.

End Correlation.

(** *** The stub server at work *)

(** C1 as stated fails: the request goes out with id 1, the server answers
    with a document whose id is 2, and [send_request] returns that document
    to the caller. *)
Lemma reply_with_another_id_is_returned :
  let reply := Stub.reply 2 in
  let self := Stub.client [Emit (Stub.line_of reply)] true in
  exists self',
    @Diagram.send_request Codec.json "tools/list" (PDict []) self
    = Ret reply self' /\
    getitem (Diagram.make_request "tools/list" (PDict [])) "id" = Ok (PInt 1) /\
    getitem reply "id" = Ok (PInt 2).
Proof.
  cbv zeta. eexists. split; [| split]; reflexivity.
Qed.

Lemma send_request_returns_next_line_witness :
  let p := Stub.process [Quiet; Emit (Stub.line_of (Stub.reply 7))] true in
  let self := Stub.client [Quiet; Emit (Stub.line_of (Stub.reply 7))] true in
  @Diagram.send_request Codec.json "tools/list" (PDict []) self
  = Ret (Stub.reply 7)
        (after_request self p
           (Codec.dumps_value (Diagram.make_request "tools/list" (PDict []))
            ++ newline) []).
Proof.
  cbv zeta.
  apply (@send_request_returns_next_line Codec.json
           (Stub.client [Quiet; Emit (Stub.line_of (Stub.reply 7))] true)
           (Stub.process [Quiet; Emit (Stub.line_of (Stub.reply 7))] true)
           "tools/list" (PDict [])
           (Codec.dumps_value (Diagram.make_request "tools/list" (PDict [])))
           (Stub.line_of (Stub.reply 7)) 1 [] (Stub.reply 7));
    reflexivity.
Defined.

(** C2 as stated fails: two different requests sent one after the other in
    one session reach the child as two frames that both carry the id 1. *)
Lemma two_requests_share_an_id :
  let reply := Stub.reply 1 in
  let self := Stub.client [Emit (Stub.line_of reply);
                           Emit (Stub.line_of reply)] true in
  exists self' p' first second,
    (@Diagram.list_available_tools Codec.json ;;;
     @Diagram.get_server_info Codec.json)%py self = Ret reply self' /\
    Diagram.server_process self' = Some p' /\
    stdin_data p' = [first; second] /\
    String.eqb first second = false /\
    @frame_id Codec.json first = Ok (PInt 1) /\
    @frame_id Codec.json second = Ok (PInt 1).
Proof.
  cbv zeta. do 4 eexists.
  split; [reflexivity |]. split; [reflexivity |]. split; [reflexivity |].
  split; [| split]; vm_compute; reflexivity.
Qed.

Lemma send_request_writes_id_1_witness :
  let self := Stub.client [Emit "{}"] true in
  getitem (Diagram.make_request "initialize" (PDict [])) "id" = Ok (PInt 1) /\
  exists p',
    Diagram.server_process
      (after_request self (Stub.process [Emit "{}"] true)
         (Codec.dumps_value (Diagram.make_request "initialize" (PDict []))
          ++ newline) [])
    = Some p' /\
    stdin_data p'
    = [(Codec.dumps_value (Diagram.make_request "initialize" (PDict []))
        ++ newline)%string].
Proof.
  cbv zeta.
  apply (@send_request_writes_id_1 Codec.json
           (Stub.client [Emit "{}"] true)
           (after_request (Stub.client [Emit "{}"] true)
              (Stub.process [Emit "{}"] true)
              (Codec.dumps_value (Diagram.make_request "initialize" (PDict []))
               ++ newline) [])
           (Stub.process [Emit "{}"] true)
           "initialize" (PDict [])
           (Codec.dumps_value (Diagram.make_request "initialize" (PDict [])))
           (PDict []));
    reflexivity.
Defined.

(** C4 as stated fails.  The child is silent for three units of time, which
    is longer than any timeout of at most three.  When the reply then comes,
    the call returns it as its outcome, and that outcome is no error; when
    nothing ever comes and the output stays open, the call never returns. *)
Lemma late_reply_is_returned_and_silence_blocks :
  let reply := Stub.reply 1 in
  let late := Stub.client [Quiet; Quiet; Quiet; Emit (Stub.line_of reply)] false in
  let silent := Stub.client [Quiet; Quiet; Quiet] false in
  (exists self',
      @Diagram.send_request Codec.json "tools/list" (PDict []) late
      = Ret reply self' /\
      field "error" reply = None) /\
  @Diagram.send_request Codec.json "tools/list" (PDict []) silent = Hang.
Proof.
  cbv zeta. split; [eexists; split; reflexivity | reflexivity].
Qed.

Lemma send_request_waits_witness :
  @Diagram.send_request Codec.json "tools/list" (PDict [])
    (Stub.client [Quiet; Quiet] false) = Hang.
Proof.
  exact (proj2 (proj2 (@send_request_waits Codec.json
                         (Stub.client [Quiet; Quiet] false)
                         (Stub.process [Quiet; Quiet] false)
                         "tools/list" (PDict [])
                         (Codec.dumps_value
                            (Diagram.make_request "tools/list" (PDict [])))
                         2 eq_refl eq_refl eq_refl eq_refl))
               eq_refl eq_refl).
Defined.

(** ** The session client *)

Section Session.
Import Terraform.

Lemma guarded_not_connected {A : Type} (body : M TerraformMCPClient A)
    (self : TerraformMCPClient) :
  session self = None -> guarded body self = Raise not_connected self.
Proof. unfold guarded. now intros ->. Qed.

Lemma guarded_connected {A : Type} (body : M TerraformMCPClient A)
    (self : TerraformMCPClient) (s : ClientSession) :
  session self = Some s -> guarded body self = body self.
Proof. unfold guarded. now intros ->. Qed.

Lemma await_session_runs {A : Type} (r : request)
    (method : ClientSession -> answer A) (self : TerraformMCPClient)
    (s : ClientSession) :
  session self = Some s ->
  await_session r method self =
  match method s with
  | Answers a => Ret a (after_call self s r)
  | Fails e => Raise e (after_call self s r)
  | Silent => Hang
  end.
Proof. unfold await_session. now intros ->. Qed.

(** What a reader returns once a session is set. *)
Lemma read_outcome_connected (uri type : string) (self : TerraformMCPClient)
    (s : ClientSession) :
  session self = Some s ->
  read_outcome uri type self =
  let self' := after_call self s (ReadResource uri) in
  match read_resource s uri with
  | Answers [] =>
      Ret (PDict [("status", PStr "success");
                  ("content", PStr "No content available");
                  ("type", PStr type);
                  ("content_length", PInt 0)]) self'
  | Answers (TextItem text :: _) =>
      Ret (PDict [("status", PStr "success");
                  ("content", PStr text);
                  ("type", PStr type);
                  ("content_length", PInt (Z.of_nat (String.length text)))]) self'
  | Answers (OtherItem kind :: _) =>
      Ret (error_outcome
             (mkExn AttributeError ("'" ++ kind ++ "' object has no attribute 'text'"))
             type) self'
  | Fails e => Ret (error_outcome e type) self'
  | Silent => Hang
  end.
Proof.
  intros Hs. unfold read_outcome.
  rewrite (guarded_connected _ _ _ Hs).
  unfold try_except, bind. rewrite (await_session_runs _ _ _ _ Hs).
  destruct (read_resource s uri) as [[| [text | kind] rest] | e |]; reflexivity.
Qed.

Section Tools.
Context {J : Json}.

(** What a tool caller returns once a session is set. *)
Lemma tool_outcome_connected (name : string) (arguments : pyval)
    (type : string) (extra : list (string * pyval))
    (self : TerraformMCPClient) (s : ClientSession) :
  session self = Some s ->
  tool_outcome name arguments type extra self =
  let self' := after_call self s (CallTool name arguments) in
  match call_tool s name arguments with
  | Answers [] =>
      Ret (PDict [("status", PStr "error");
                  ("error", PStr "No response content");
                  ("type", PStr type)]) self'
  | Answers (item :: _) =>
      match decode_or_output item with
      | Ok result =>
          Ret (PDict ([("status", PStr "success");
                       ("result", result);
                       ("type", PStr type)] ++ extra)) self'
      | Exc e => Ret (error_outcome e type) self'
      end
  | Fails e => Ret (error_outcome e type) self'
  | Silent => Hang
  end.
Proof.
  intros Hs. unfold tool_outcome.
  rewrite (guarded_connected _ _ _ Hs).
  unfold try_except, bind. rewrite (await_session_runs _ _ _ _ Hs).
  destruct (call_tool s name arguments) as [[| item rest] | e |];
    try reflexivity.
  unfold lift. destruct (decode_or_output item); reflexivity.
Qed.

End Tools.
End Session.

Section Outcomes.
Import Terraform.

(** C8.  When the reply to a resource read carries empty content, no item
    at all or a first item whose text is empty, each of the three readers
    returns an outcome whose status is ["success"] and whose content length
    is 0.  When the read fails instead, on any client with a session, the
    same reader returns the error outcome of the exception, whose status is
    ["error"] and which is not the outcome of the empty reply: the two are
    told apart. *)
Theorem empty_content_is_success
    (op : M TerraformMCPClient pyval) (uri type : string)
    (self : TerraformMCPClient) (s : ClientSession)
    (contents : list content_item) :
  In (op, uri, type) readers ->
  session self = Some s ->
  read_resource s uri = Answers contents ->
  contents = [] \/ (exists rest, contents = TextItem EmptyString :: rest) ->
  exists outcome,
    op self = Ret outcome (after_call self s (ReadResource uri)) /\
    status_of outcome = Some (PStr "success") /\
    field "content_length" outcome = Some (PInt 0) /\
    (forall e, status_of (error_outcome e type) = Some (PStr "error") /\
               outcome <> error_outcome e type) /\
    (forall (failing : TerraformMCPClient) (s' : ClientSession) (e : exn),
        session failing = Some s' ->
        read_resource s' uri = Fails e ->
        exists failed,
          op failing = Ret failed (after_call failing s' (ReadResource uri)) /\
          failed = error_outcome e type /\
          status_of failed = Some (PStr "error") /\
          field "error" failed = Some (PStr (exn_str e)) /\
          field "content_length" failed = None /\
          outcome <> failed).
Proof.
  intros Hop Hs Hread Hempty.
  assert (Hreader : op = read_outcome uri type).
  { simpl in Hop.
    destruct Hop as [H | [H | [H | []]]]; inversion H; reflexivity. }
  subst op.
  assert (Hfailed :
            forall (failing : TerraformMCPClient) (s' : ClientSession) (e : exn),
              session failing = Some s' ->
              read_resource s' uri = Fails e ->
              read_outcome uri type failing
              = Ret (error_outcome e type)
                    (after_call failing s' (ReadResource uri))).
  { intros failing s' e Hs' Hfails.
    rewrite (read_outcome_connected uri type failing s' Hs'), Hfails.
    reflexivity. }
  rewrite (read_outcome_connected uri type self s Hs), Hread.
  destruct Hempty as [-> | [rest ->]];
    (eexists; split; [reflexivity |];
     split; [reflexivity |]; split; [reflexivity |];
     split; [intros e; split; [reflexivity | discriminate] |];
     intros failing s' e Hs' Hfails;
     exists (error_outcome e type);
     split; [exact (Hfailed failing s' e Hs' Hfails) |];
     split; [reflexivity |]; split; [reflexivity |];
     split; [reflexivity |]; split; [reflexivity | discriminate]).
Qed.

Section Decoding.
Context {J : Json}.

(** C7, as the code has it.  For a tool reply whose first content item
    carries text, the caller decodes the text as JSON and returns a success
    outcome with the decoded value; when the decoder raises
    [JSONDecodeError] it returns a success outcome with [{"output": text}].
    An exception of another class from the decoder, and a first item that
    carries no text, give an outcome whose status is ["error"].
    [execute_terraform_command], [run_checkov_scan] and
    [search_aws_provider_docs] are [tool_outcome] at their tool, arguments
    and type. *)
Theorem tool_reply_decoding
    (name : string) (arguments : pyval) (type : string)
    (extra : list (string * pyval)) (self : TerraformMCPClient)
    (s : ClientSession) (item : content_item) (rest : list content_item) :
  session self = Some s ->
  call_tool s name arguments = Answers (item :: rest) ->
  let self' := after_call self s (CallTool name arguments) in
  let success (result : pyval) :=
    Ret (PDict ([("status", PStr "success");
                 ("result", result);
                 ("type", PStr type)] ++ extra)) self' in
  (forall text result,
      item = TextItem text -> json_loads text = Ok result ->
      tool_outcome name arguments type extra self = success result) /\
  (forall text e,
      item = TextItem text -> json_loads text = Exc e ->
      is_JSONDecodeError e = true ->
      tool_outcome name arguments type extra self
      = success (PDict [("output", PStr text)])) /\
  (forall text e,
      item = TextItem text -> json_loads text = Exc e ->
      is_JSONDecodeError e = false ->
      tool_outcome name arguments type extra self
      = Ret (error_outcome e type) self') /\
  (forall kind,
      item = OtherItem kind ->
      exists e,
        tool_outcome name arguments type extra self
        = Ret (error_outcome e type) self').
Proof.
  intros Hs Hcall self' success.
  pose proof (tool_outcome_connected name arguments type extra self s Hs)
    as Hrun.
  rewrite Hcall in Hrun. cbv zeta in Hrun. fold self' in Hrun.
  unfold decode_or_output in Hrun.
  repeat split.
  - intros text result -> Hdec. simpl in Hrun. now rewrite Hdec in Hrun.
  - intros text e -> Hdec Hcls. simpl in Hrun.
    now rewrite Hdec, Hcls in Hrun.
  - intros text e -> Hdec Hcls. simpl in Hrun.
    now rewrite Hdec, Hcls in Hrun.
  - intros kind ->. simpl in Hrun. eexists. exact Hrun.
Qed.

End Decoding.


End Outcomes.

(** *** The stub session at work *)

(** An empty reply and a failed read, on the reader of the best practices:
    the first gives a success outcome of length 0, the second, on a session
    whose context has been left, the error outcome of the exception. *)
Lemma empty_content_is_success_witness :
  let failing :=
    Terraform.mkClient "python3.10" ["-m"; "awslabs.terraform_mcp_server.server"]
      (Some (Terraform.close_session (Stub.session_until_closed []))) in
  exists outcome failed,
    Terraform.get_aws_best_practices (Stub.connected [])
    = Ret outcome
          (after_call (Stub.connected []) (Stub.session_answering [])
             (Terraform.ReadResource "terraform://aws_best_practices")) /\
    status_of outcome = Some (PStr "success") /\
    field "content_length" outcome = Some (PInt 0) /\
    Terraform.get_aws_best_practices failing
    = Ret failed
          (after_call failing
             (Terraform.close_session (Stub.session_until_closed []))
             (Terraform.ReadResource "terraform://aws_best_practices")) /\
    failed = Terraform.error_outcome Stub.closed_resource "aws_best_practices" /\
    status_of failed = Some (PStr "error") /\
    outcome <> failed.
Proof.
  cbv zeta.
  destruct (empty_content_is_success Terraform.get_aws_best_practices
              "terraform://aws_best_practices" "aws_best_practices"
              (Stub.connected []) (Stub.session_answering []) []
              (or_introl eq_refl) eq_refl eq_refl (or_introl eq_refl))
    as (outcome & Hrun & Hstatus & Hlength & _ & Hfailing).
  destruct (Hfailing
              (Terraform.mkClient "python3.10"
                 ["-m"; "awslabs.terraform_mcp_server.server"]
                 (Some (Terraform.close_session (Stub.session_until_closed []))))
              (Terraform.close_session (Stub.session_until_closed []))
              Stub.closed_resource eq_refl eq_refl)
    as (failed & Hrun' & Hfailed & Hstatus' & _ & _ & Hdiffer).
  exists outcome, failed.
  repeat (split; [assumption |]). assumption.
Defined.

(** C7 as stated fails: the reply to a tool call has content, an image and
    no text, and both tool callers return an outcome whose status is
    ["error"]. *)
Lemma reply_without_text_is_an_error :
  let self := Stub.connected [Terraform.OtherItem "ImageContent"] in
  (exists outcome self',
      @Terraform.execute_terraform_command Codec.json
        "plan" "/srv/infra" None None self = Ret outcome self' /\
      status_of outcome = Some (PStr "error")) /\
  (exists outcome self',
      @Terraform.run_checkov_scan Codec.json
        "/srv/infra" "terraform" None None self = Ret outcome self' /\
      status_of outcome = Some (PStr "error")).
Proof.
  cbv zeta. split; do 2 eexists; split; reflexivity.
Qed.

(** Terraform's plain report is not JSON and comes back as opaque output. *)
Lemma tool_reply_decoding_witness :
  let self := Stub.connected [Terraform.TextItem "Apply complete!"] in
  @Terraform.execute_terraform_command Codec.json
    "apply" "/srv/infra" None None self
  = Ret (PDict [("status", PStr "success");
                ("result", PDict [("output", PStr "Apply complete!")]);
                ("type", PStr "terraform_execution")])
        (after_call self
           (Stub.session_answering [Terraform.TextItem "Apply complete!"])
           (Terraform.CallTool "ExecuteTerraformCommand"
              (PDict [("command", PStr "apply");
                      ("working_directory", PStr "/srv/infra");
                      ("variables", PDict []);
                      ("aws_region", PNone);
                      ("strip_ansi", PBool true)]))).
Proof.
  cbv zeta.
  exact (proj1 (proj2
    (@tool_reply_decoding Codec.json "ExecuteTerraformCommand"
       (PDict [("command", PStr "apply");
               ("working_directory", PStr "/srv/infra");
               ("variables", PDict []);
               ("aws_region", PNone);
               ("strip_ansi", PBool true)])
       "terraform_execution" []
       (Stub.connected [Terraform.TextItem "Apply complete!"])
       (Stub.session_answering [Terraform.TextItem "Apply complete!"])
       (Terraform.TextItem "Apply complete!") [] eq_refl eq_refl))
    "Apply complete!" (mkExn JSONDecodeError "Expecting value")
    eq_refl eq_refl eq_refl).
Defined.


(** C5 on the code.  A client whose connection has been entered and left
    ([async with client.connect(): pass]) still holds the session, now
    closed.  Listing the tools then passes the guard, sends the call to the
    closed session and raises what the session raises, which is not the
    not-connected error; a reader sends its call as well and reports the
    session's error.  Inside the connection the same reader succeeds. *)
Theorem closed_session_is_still_used :
  let after := @Terraform.with_connect Stub.mcp unit (ret tt) Terraform.__init__ in
  (exists outcome self0,
      @Terraform.get_live_best_practices Stub.mcp = Ret outcome self0 /\
      status_of outcome = Some (PStr "success")) /\
  exists self s,
    after = Ret tt self /\
    Terraform.session self = Some s /\
    Terraform.closed s = true /\
    Terraform.sent s = [] /\
    Terraform.get_available_tools self
    = Raise Stub.closed_resource (after_call self s Terraform.ListTools) /\
    Stub.closed_resource <> Terraform.not_connected /\
    Terraform.get_aws_best_practices self
    = Ret (Terraform.error_outcome Stub.closed_resource "aws_best_practices")
          (after_call self s
             (Terraform.ReadResource "terraform://aws_best_practices")).
Proof.
  cbv zeta. split; [do 2 eexists; split; reflexivity |].
  do 2 eexists.
  split; [reflexivity |]. split; [reflexivity |].
  split; [reflexivity |]. split; [reflexivity |].
  split; [reflexivity |]. split; [discriminate | reflexivity].
Qed.

(** * More of the clients *)

(** ** Starting, stopping and the requests in between *)

Lemma cmd_strings_items (cmd : list pyval) (cmd_s : list string) :
  cmd_strings cmd = Ok cmd_s -> cmd = map PStr cmd_s.
Proof.
  revert cmd_s.
  induction cmd as [| v cmd IH]; intros cmd_s Hcmd; simpl in Hcmd.
  - now inversion Hcmd.
  - destruct v; try discriminate.
    destruct (cmd_strings cmd) as [rest |]; simpl in Hcmd; [| discriminate].
    inversion Hcmd; subst. simpl. now rewrite <- (IH rest).
Qed.

Section StartMore.
Context {O : OS}.

(** X1.  What [start_server] leaves behind.  When it returns [True] the
    client holds a child that was running when polled, started with the
    command line [[command] + args] of the configuration, and nothing has
    been written to it.  When it returns [False] either nothing has changed
    or the client holds a child that had already exited when polled. *)
Theorem start_server_postcondition
    (self self' : Diagram.MCPDiagramClient) (started : bool) :
  Diagram.start_server self = Ret started self' ->
  if started then
    exists p command args,
      Diagram.server_process self' = Some p /\
      poll p = None /\
      getitem (Diagram.server_config self) "command" = Ok (PStr command) /\
      getitem (Diagram.server_config self) "args" = Ok (PList (map PStr args)) /\
      popen_args p = command :: args /\
      stdin_data p = []
  else
    self' = self \/
    exists p code, Diagram.server_process self' = Some p /\ poll p = Some code.
Proof.
  intros Hrun.
  destruct (start_server_cases self)
    as [(command & args & cmd & env & cmd_s & merged & process
         & Hc & Ha & Hplus & _ & Hstrs & _ & Hpopen & Hstart) | Hstart];
    rewrite Hstart in Hrun; inversion Hrun; subst; clear Hrun;
    [| now left].
  destruct (Popen_new_env _ _ _ Hpopen) as [Hargs _].
  assert (Hdata : stdin_data process = []).
  { unfold Popen_new in Hpopen.
    destruct (env_strings merged) as [env_s |]; simpl in Hpopen; [| discriminate].
    destruct (spawn cmd_s env_s); simpl in Hpopen; [| discriminate].
    now inversion Hpopen. }
  destruct (poll process) as [code |] eqn:Hpoll.
  - right. exists process, code. now split.
  - destruct args as [| | | | | xs |]; simpl in Hplus; try discriminate.
    injection Hplus as Hplus. rewrite <- Hplus in Hstrs.
    pose proof (cmd_strings_items _ _ Hstrs) as Hcmd.
    destruct cmd_s as [| c0 rest]; simpl in Hcmd; [discriminate |].
    injection Hcmd as Hc0 Hrest. subst command xs.
    exists process, c0, rest. repeat split; assumption.
Qed.

(** X2.  A configuration without a ["command"] or an ["args"] item, and a
    machine that cannot launch the command, make [start_server] return
    [False] and leave the client as it was: no child is held. *)
Theorem start_server_refuses
    (self : Diagram.MCPDiagramClient) :
  (exists e, getitem (Diagram.server_config self) "command" = Exc e) \/
  (exists e, getitem (Diagram.server_config self) "args" = Exc e) \/
  (forall cmd env, exists e, spawn cmd env = Exc e) ->
  Diagram.start_server self = Ret false self.
Proof.
  intros Hbad.
  destruct (start_server_cases self)
    as [(command & args & cmd & env & cmd_s & merged & process
         & Hc & Ha & _ & _ & _ & _ & Hpopen & _) | Hstart];
    [| exact Hstart].
  destruct Hbad as [[e He] | [[e He] | Hspawn]].
  - rewrite He in Hc. discriminate.
  - rewrite He in Ha. discriminate.
  - unfold Popen_new in Hpopen.
    destruct (env_strings merged) as [env_s |]; simpl in Hpopen; [| discriminate].
    destruct (Hspawn cmd_s env_s) as [e He]. rewrite He in Hpopen. discriminate.
Qed.

End StartMore.

Section LoadMore.
Context {J : Json} {O : OS}.

(** The child a client without a child is left with by [start_server] was
    started from the configured command line. *)
Lemma start_server_command_line
    (self self' : Diagram.MCPDiagramClient) (started : bool) (p : Popen) :
  Diagram.server_process self = None ->
  Diagram.start_server self = Ret started self' ->
  Diagram.server_process self' = Some p ->
  exists command args,
    getitem (Diagram.server_config self) "command" = Ok (PStr command) /\
    getitem (Diagram.server_config self) "args" = Ok (PList (map PStr args)) /\
    popen_args p = command :: args.
Proof.
  intros Hnone Hrun Hp.
  destruct (start_server_cases self)
    as [(command & args & cmd & env & cmd_s & merged & process
         & Hc & Ha & Hplus & _ & Hstrs & _ & Hpopen & Hstart) | Hstart];
    rewrite Hstart in Hrun; inversion Hrun; subst; clear Hrun.
  - simpl in Hp. injection Hp as ->.
    destruct (Popen_new_env _ _ _ Hpopen) as [Hargs _].
    destruct args as [| | | | | xs |]; simpl in Hplus; try discriminate.
    injection Hplus as Hplus. rewrite <- Hplus in Hstrs.
    pose proof (cmd_strings_items _ _ Hstrs) as Hcmd.
    destruct cmd_s as [| c0 rest]; simpl in Hcmd; [discriminate |].
    injection Hcmd as Hc0 Hrest. subst command xs.
    exists c0, rest. repeat split; assumption.
  - rewrite Hnone in Hp. discriminate.
Qed.

(** X3.  When the configuration file holds a JSON document with an
    ["aws-diagram"] item under ["mcpServers"], the client is built on that
    item as it is, not on the default, and the child its [start_server]
    then starts runs the command line [[command] + args] of that item. *)
Theorem configured_command_is_launched
    (path text : string) (config servers entry : pyval) :
  files path = Text text ->
  json_loads text = Ok config ->
  getitem config "mcpServers" = Ok servers ->
  getitem servers "aws-diagram" = Ok entry ->
  exists client,
    Diagram.__init__ path = Ok client /\
    Diagram.server_config client = entry /\
    Lightweight._load_config path = Ok entry /\
    (forall started client' p,
        Diagram.start_server client = Ret started client' ->
        Diagram.server_process client' = Some p ->
        exists command args,
          getitem entry "command" = Ok (PStr command) /\
          getitem entry "args" = Ok (PList (map PStr args)) /\
          popen_args p = command :: args).
Proof.
  intros Hf Hj Hs He.
  exists (Diagram.mkClient path entry None).
  unfold Diagram.__init__, Diagram._load_config, Lightweight._load_config.
  rewrite Hf. simpl. rewrite Hj. simpl. rewrite Hs. simpl. rewrite He. simpl.
  repeat split.
  intros started client' p Hrun Hp.
  exact (start_server_command_line (Diagram.mkClient path entry None)
           client' started p eq_refl Hrun Hp).
Qed.

End LoadMore.

Section SendMore.
Context {J : Json}.

(** X4.  Once [stop_server] has returned, every request is refused with the
    "Server not running" error and leaves the client as it is: nothing is
    written to the stopped child and nothing is read from it. *)
Theorem stopped_client_refuses_requests
    (self self1 : Diagram.MCPDiagramClient) (method : string) (params : pyval) :
  Diagram.stop_server self = Ret tt self1 ->
  Diagram.send_request method params self1
  = Ret (error_dict "Server not running") self1.
Proof.
  intros Hstop. apply send_request_not_running.
  pose proof (stop_server_reaps _ _ Hstop) as Hreaped.
  destruct (Diagram.server_process self1) as [p |]; [| exact I].
  destruct Hreaped as [code Hcode]. unfold poll. rewrite Hcode. discriminate.
Qed.

(** X5.  When the request cannot be encoded, or writing to the child's input
    raises, [send_request] returns the text of the exception as an error
    and leaves the client as it was: nothing has reached the child and none
    of its output has been read. *)
Theorem send_request_write_failure
    (self : Diagram.MCPDiagramClient) (p : Popen) (method : string)
    (params : pyval) (e : exn) :
  Diagram.server_process self = Some p ->
  poll p = None ->
  json_dumps (Diagram.make_request method params) = Exc e \/
  ((exists dumped, json_dumps (Diagram.make_request method params) = Ok dumped)
   /\ stdin_fault p = Some e) ->
  Diagram.send_request method params self
  = Ret (error_dict (exn_str e)) self.
Proof.
  intros Hp Hpoll Hfail.
  unfold Diagram.send_request. rewrite Hp, Hpoll.
  unfold try_except, bind, lift.
  destruct Hfail as [Hdump | [[dumped Hdump] Hfault]]; rewrite Hdump.
  - reflexivity.
  - unfold Diagram.on_process at 1. rewrite Hp.
    unfold stdin_write. rewrite Hfault. unfold ret.
    destruct self as [path config process]; simpl in *. now subst.
Qed.

(** X6.  Two requests sent one after the other to a running child receive
    the next two lines of its output in order, and their two frames reach
    the child in order.  A first line that is not JSON is used up by the
    first request, which returns the decoder's message as an error; the
    second request still receives the second line. *)
Theorem requests_are_answered_in_order
    (self : Diagram.MCPDiagramClient) (p : Popen)
    (method1 method2 : string) (params1 params2 : pyval)
    (dumped1 dumped2 line1 line2 : string) (ts : list tick)
    (response2 : pyval) :
  Diagram.server_process self = Some p ->
  poll p = None ->
  stdin_fault p = None ->
  json_dumps (Diagram.make_request method1 params1) = Ok dumped1 ->
  json_dumps (Diagram.make_request method2 params2) = Ok dumped2 ->
  stdout p = Emit line1 :: Emit line2 :: ts ->
  str_truthy line1 = true ->
  str_truthy line2 = true ->
  json_loads (strip line2) = Ok response2 ->
  (first <- Diagram.send_request method1 params1 ;;
   second <- Diagram.send_request method2 params2 ;;
   ret (first, second))%py self
  = Ret (match json_loads (strip line1) with
         | Ok response1 => response1
         | Exc e => error_dict (exn_str e)
         end,
         response2)
        (Diagram.mkClient (Diagram.config_path self) (Diagram.server_config self)
           (Some (set_stdout ts
                    (set_stdin_data
                       (stdin_data p ++ [(dumped1 ++ newline)%string;
                                         (dumped2 ++ newline)%string])
                       p)))).
Proof.
  intros Hp Hpoll Hfault Hd1 Hd2 Hout Hl1 Hl2 Hr2.
  unfold bind.
  rewrite (send_request_live self p method1 params1 dumped1 Hp Hpoll Hfault Hd1).
  rewrite Hout. simpl. rewrite Hl1.
  set (p1 := set_stdout (Emit line2 :: ts)
               (set_stdin_data (stdin_data p ++ [(dumped1 ++ newline)%string]) p)).
  assert (Hsecond :
    Diagram.send_request method2 params2
      (after_request self p (dumped1 ++ newline) (Emit line2 :: ts))
    = Ret response2
          (after_request
             (after_request self p (dumped1 ++ newline) (Emit line2 :: ts))
             p1 (dumped2 ++ newline) ts)).
  { rewrite (send_request_live
               (after_request self p (dumped1 ++ newline) (Emit line2 :: ts))
               p1 method2 params2 dumped2 eq_refl Hpoll Hfault Hd2).
    simpl. now rewrite Hl2, Hr2. }
  assert (Hstate :
    after_request
      (after_request self p (dumped1 ++ newline) (Emit line2 :: ts))
      p1 (dumped2 ++ newline) ts
    = Diagram.mkClient (Diagram.config_path self) (Diagram.server_config self)
        (Some (set_stdout ts
                 (set_stdin_data
                    (stdin_data p ++ [(dumped1 ++ newline)%string;
                                      (dumped2 ++ newline)%string])
                    p)))).
  { unfold after_request, p1, set_stdout, set_stdin_data; simpl.
    now rewrite <- app_assoc. }
  destruct (json_loads (strip line1)); rewrite Hsecond, Hstate; reflexivity.
Qed.

Context {O : OS}.

Lemma main_with_never_raises (client s : Diagram.MCPDiagramClient) (e : exn) :
  Diagram.main_with client <> Raise e s.
Proof.
  unfold Diagram.main_with, try_finally, try_except.
  match goal with
  | |- match match ?m with _ => _ end with _ => _ end <> _ =>
      destruct m as [a s1 | e1 s1 |]
  end; try discriminate.
  - destruct (Diagram.stop_server s1) as [u s2 | e2 s2 |] eqn:Hstop;
      try discriminate.
    now apply stop_server_never_raises in Hstop.
  - unfold ret.
    destruct (Diagram.stop_server s1) as [u s2 | e2 s2 |] eqn:Hstop;
      try discriminate.
    now apply stop_server_never_raises in Hstop.
Qed.

(** X7.  [main] never raises, and when it returns it leaves no running
    child behind: the client holds no child at all, or one that has
    exited. *)
Theorem main_leaves_no_running_child
    (client client' : Diagram.MCPDiagramClient) :
  Diagram.main_with client = Ret tt client' ->
  match Diagram.server_process client' with
  | Some p => exists code, poll p = Some code
  | None => True
  end /\
  (forall (c s : Diagram.MCPDiagramClient) (e : exn),
      Diagram.main_with c <> Raise e s).
Proof.
  intros Hmain. split; [| intros; apply main_with_never_raises].
  unfold Diagram.main_with, try_finally in Hmain.
  match type of Hmain with
  | match ?m with _ => _ end = _ => destruct m as [a s1 | e1 s1 |]
  end; try discriminate.
  - destruct (Diagram.stop_server s1) as [u s2 | e2 s2 |] eqn:Hstop;
      try discriminate.
    inversion Hmain; subst; clear Hmain.
    destruct u.
    pose proof (stop_server_reaps _ _ Hstop) as Hreaped.
    destruct (Diagram.server_process client'); [exact Hreaped | exact I].
  - destruct (Diagram.stop_server s1) as [u s2 | e2 s2 |]; discriminate.
Qed.

End SendMore.

(** *** Examples *)

Lemma start_server_postcondition_witness :
  let self := Diagram.mkClient "mcp_config.json" Diagram.default_config None in
  exists self',
    @Diagram.start_server Stub.os self = Ret true self' /\
    exists p command args,
      Diagram.server_process self' = Some p /\
      poll p = None /\
      getitem (Diagram.server_config self) "command" = Ok (PStr command) /\
      getitem (Diagram.server_config self) "args" = Ok (PList (map PStr args)) /\
      popen_args p = command :: args /\
      stdin_data p = [].
Proof.
  cbv zeta. eexists. split; [reflexivity |].
  eapply (@start_server_postcondition Stub.os
            (Diagram.mkClient "mcp_config.json" Diagram.default_config None)
            _ true).
  reflexivity.
Defined.

Lemma start_server_refuses_witness :
  let self := Diagram.mkClient "mcp_config.json"
                (PDict [("args", PList [PStr "-m"])]) None in
  @Diagram.start_server Stub.os self = Ret false self.
Proof.
  cbv zeta.
  apply (@start_server_refuses Stub.os).
  left. eexists. reflexivity.
Defined.

Lemma configured_command_is_launched_witness :
  exists client,
    @Diagram.__init__ Codec.json Fixture.os "mcp_config.json" = Ok client /\
    Diagram.server_config client = Fixture.entry /\
    @Lightweight._load_config Codec.json Fixture.os "mcp_config.json"
    = Ok Fixture.entry /\
    (forall started client' p,
        @Diagram.start_server Fixture.os client = Ret started client' ->
        Diagram.server_process client' = Some p ->
        exists command args,
          getitem Fixture.entry "command" = Ok (PStr command) /\
          getitem Fixture.entry "args" = Ok (PList (map PStr args)) /\
          popen_args p = command :: args).
Proof.
  apply (@configured_command_is_launched Codec.json Fixture.os
           "mcp_config.json" Fixture.config_text
           (PDict [("mcpServers", PDict [("aws-diagram", Fixture.entry)])])
           (PDict [("aws-diagram", Fixture.entry)]) Fixture.entry);
    reflexivity.
Defined.

Lemma stopped_client_refuses_requests_witness :
  let stopped :=
    Diagram.mkClient "mcp_config.json" Diagram.default_config
      (Some (set_exit_status (Some (-15)%Z) (Stub.process [] false))) in
  @Diagram.send_request Codec.json "tools/list" (PDict []) stopped
  = Ret (error_dict "Server not running") stopped.
Proof.
  cbv zeta.
  apply (@stopped_client_refuses_requests Codec.json (Stub.client [] false)).
  reflexivity.
Defined.

Lemma send_request_write_failure_witness :
  @Diagram.send_request Codec.json "tools/list" (PDict []) Fixture.deaf_client
  = Ret (error_dict "[Errno 32] Broken pipe") Fixture.deaf_client.
Proof.
  eapply (@send_request_write_failure Codec.json Fixture.deaf_client _
            "tools/list" (PDict []) Fixture.broken_pipe);
    [reflexivity | reflexivity |].
  right. split; [eexists |]; reflexivity.
Defined.

Lemma requests_are_answered_in_order_witness :
  let self := Stub.client [Emit "starting up"; Emit (Stub.line_of (Stub.reply 1))]
                          true in
  exists message self',
    (first <- @Diagram.send_request Codec.json "initialize" (PDict []) ;;
     second <- @Diagram.send_request Codec.json "tools/list" (PDict []) ;;
     ret (first, second))%py self
    = Ret (error_dict message, Stub.reply 1) self'.
Proof.
  cbv zeta. do 2 eexists.
  eapply eq_trans; [| reflexivity].
  exact (@requests_are_answered_in_order Codec.json
             (Stub.client [Emit "starting up"; Emit (Stub.line_of (Stub.reply 1))] true)
             (Stub.process [Emit "starting up"; Emit (Stub.line_of (Stub.reply 1))] true)
             "initialize" "tools/list" (PDict []) (PDict [])
             (Codec.dumps_value (Diagram.make_request "initialize" (PDict [])))
             (Codec.dumps_value (Diagram.make_request "tools/list" (PDict [])))
             "starting up" (Stub.line_of (Stub.reply 1)) [] (Stub.reply 1)
             eq_refl eq_refl eq_refl eq_refl eq_refl eq_refl eq_refl eq_refl
             eq_refl).
Defined.

Lemma main_leaves_no_running_child_witness :
  match @Diagram.main_with Codec.json Fixture.os
          (Diagram.mkClient "mcp_config.json" Fixture.entry None) with
  | Ret _ client' =>
      match Diagram.server_process client' with
      | Some p => exists code, poll p = Some code
      | None => True
      end
  | _ => False
  end.
Proof.
  destruct (@Diagram.main_with Codec.json Fixture.os
              (Diagram.mkClient "mcp_config.json" Fixture.entry None))
    as [[] client' | e client' |] eqn:Hmain.
  - exact (proj1 (@main_leaves_no_running_child Codec.json Fixture.os
                    _ client' Hmain)).
  - vm_compute in Hmain. discriminate.
  - vm_compute in Hmain. discriminate.
Defined.

(** ** The widgets *)

(** *** Substrings and lower case *)

Lemma starts_with_app (p s t : string) :
  starts_with p s = true -> starts_with p (s ++ t) = true.
Proof.
  revert s. induction p as [| a p IH]; intros s Hp; [reflexivity |].
  destruct s as [| b s]; simpl in *; [discriminate |].
  apply andb_true_iff in Hp. destruct Hp as [Hab Hp].
  now rewrite Hab, (IH s Hp).
Qed.

Lemma contains_app_l (sub s t : string) :
  contains sub s = true -> contains sub (s ++ t) = true.
Proof.
  induction s as [| c s IH]; simpl; intros Hs.
  - rewrite orb_false_r in Hs.
    destruct sub; [destruct t; reflexivity | discriminate].
  - apply orb_true_iff in Hs. destruct Hs as [Hs | Hs].
    + change (String c (s ++ t)) with (String c s ++ t)%string.
      now rewrite (starts_with_app sub (String c s) t Hs).
    + rewrite (IH Hs). apply orb_true_r.
Qed.

Lemma contains_app_r (sub s t : string) :
  contains sub t = true -> contains sub (s ++ t) = true.
Proof.
  intros Ht. induction s as [| c s IH]; simpl; [exact Ht |].
  rewrite IH. apply orb_true_r.
Qed.

Lemma starts_with_split (p s : string) :
  starts_with p s = true -> exists t, s = (p ++ t)%string.
Proof.
  revert s. induction p as [| a p IH]; intros s Hp.
  - now exists s.
  - destruct s as [| b s]; simpl in Hp; [discriminate |].
    apply andb_true_iff in Hp. destruct Hp as [Hab Hp].
    apply Ascii.eqb_eq in Hab. subst b.
    destruct (IH s Hp) as [t ->]. now exists t.
Qed.

(** A substring of a substring is a substring. *)
Lemma contains_trans (a b s : string) :
  contains a b = true -> contains b s = true -> contains a s = true.
Proof.
  intros Hab. induction s as [| c s IH]; simpl; intros Hbs.
  - rewrite orb_false_r in Hbs.
    destruct (starts_with_split b EmptyString Hbs) as [t Ht].
    destruct b; [| discriminate]. exact Hab.
  - apply orb_true_iff in Hbs. destruct Hbs as [Hbs | Hbs].
    + destruct (starts_with_split b (String c s) Hbs) as [t Ht].
      change (starts_with a (String c s) || contains a s)
        with (contains a (String c s)).
      rewrite Ht. now apply contains_app_l.
    + rewrite (IH Hbs). apply orb_true_r.
Qed.

Lemma str_lower_app (a b : string) :
  str_lower (a ++ b) = (str_lower a ++ str_lower b)%string.
Proof. induction a as [| c a IH]; simpl; [reflexivity | now rewrite IH]. Qed.

Lemma lower_char_idempotent (c : ascii) :
  lower_char (lower_char c) = lower_char c.
Proof. destruct c as [[] [] [] [] [] [] [] []]; reflexivity. Qed.

Lemma str_lower_idempotent (s : string) :
  str_lower (str_lower s) = str_lower s.
Proof.
  induction s as [| c s IH]; simpl; [reflexivity |].
  now rewrite lower_char_idempotent, IH.
Qed.

(** *** Scanning a table of keywords *)

Lemma In_scan (table : list (string * string)) (text service : string) :
  In service (scan table text) <->
  exists keyword, In (keyword, service) table /\ contains keyword text = true.
Proof.
  unfold scan. rewrite in_map_iff. split.
  - intros [[keyword service'] [Hsnd Hin]]. simpl in Hsnd. subst service'.
    apply filter_In in Hin. now exists keyword.
  - intros [keyword [Hin Hc]]. exists (keyword, service).
    split; [reflexivity |]. apply filter_In. now split.
Qed.

Lemma NoDup_scan (table : list (string * string)) (text : string) :
  NoDup (map snd table) -> NoDup (scan table text).
Proof.
  unfold scan. induction table as [| entry table IH]; simpl; intros Hnd.
  - constructor.
  - inversion Hnd as [| x xs Hnotin Hnd']; subst.
    destruct (contains (fst entry) text); simpl; [| now apply IH].
    constructor; [| now apply IH].
    intros Hin. apply Hnotin. apply in_map_iff in Hin.
    destruct Hin as [e [He Hin]]. apply filter_In in Hin.
    rewrite <- He. apply in_map. tauto.
Qed.

(** The keywords a table has for a service. *)
Lemma In_keywords_of (table : list (string * string)) (keyword service : string) :
  In (keyword, service) table ->
  In keyword
     (map fst (filter (fun entry => String.eqb (snd entry) service) table)).
Proof.
  intros Hin. apply in_map_iff. exists (keyword, service).
  split; [reflexivity |]. apply filter_In. split; [exact Hin |].
  apply String.eqb_refl.
Qed.

Lemma NoDup_strings (xs : list string) :
  (fix distinct (l : list string) : bool :=
     match l with
     | [] => true
     | x :: l' => negb (existsb (String.eqb x) l') && distinct l'
     end) xs = true ->
  NoDup xs.
Proof.
  induction xs as [| x xs IH]; intros Hd; [constructor |].
  apply andb_true_iff in Hd. destruct Hd as [Hx Hd].
  constructor; [| now apply IH].
  intros Hin. apply negb_true_iff in Hx.
  assert (Hex : existsb (String.eqb x) xs = true).
  { apply existsb_exists. exists x. split; [exact Hin | apply String.eqb_refl]. }
  congruence.
Qed.

Section ParseComponents.
Import Widget.

(** X8.  [_parse_components] lists each service at most once; it does not
    depend on the case of the text; and a service found in a text is found
    in every text that contains it, with more text before or after. *)
Theorem parse_components_stable (a b : string) :
  NoDup (_parse_components a) /\
  _parse_components (str_lower a) = _parse_components a /\
  (forall service,
      In service (_parse_components a) ->
      In service (_parse_components (a ++ b)) /\
      In service (_parse_components (b ++ a))).
Proof.
  unfold _parse_components. split; [| split].
  - apply NoDup_scan. apply NoDup_strings. reflexivity.
  - now rewrite str_lower_idempotent.
  - intros service Hin. rewrite !str_lower_app.
    apply In_scan in Hin. destruct Hin as [keyword [Hin Hc]].
    split; apply In_scan; exists keyword; split; try exact Hin.
    + now apply contains_app_l.
    + now apply contains_app_r.
Qed.

(** A service is listed exactly when one of its keywords occurs in the text
    in lower case. *)
Lemma parse_components_spec (text service : string) :
  In service (_parse_components text) <->
  exists keyword,
    In (keyword, service) aws_services /\
    contains keyword (str_lower text) = true.
Proof. apply In_scan. Qed.

Section Devgenius.
Context {S : PySet}.

Lemma parse_aws_components_In (text service : string) :
  In service (_parse_aws_components text) <->
  match scan aws_services_map (str_lower text) with
  | [] => In service default_components
  | found => In service found
  end.
Proof.
  unfold _parse_aws_components. rewrite list_set_In.
  destruct (scan aws_services_map (str_lower text)); reflexivity.
Qed.

(** X9.  [_parse_aws_components] never returns an empty list, whatever the
    text; it lists no service twice and only services of its table; a text
    without any keyword gives exactly the three default services; and as
    "load balancer" is part of "application load balancer" and of "network
    load balancer", a list with either of these two services has ELB as
    well. *)
Theorem parse_aws_components_never_empty (text : string) :
  _parse_aws_components text <> [] /\
  NoDup (_parse_aws_components text) /\
  (forall service,
      In service (_parse_aws_components text) ->
      In service (map snd aws_services_map)) /\
  (scan aws_services_map (str_lower text) = [] ->
   forall service,
     In service (_parse_aws_components text) <-> In service default_components) /\
  (In "ApplicationLoadBalancer" (_parse_aws_components text) \/
   In "NetworkLoadBalancer" (_parse_aws_components text) ->
   In "ELB" (_parse_aws_components text)).
Proof.
  split; [| split; [| split; [| split]]].
  - assert (Hsome : exists service, In service (_parse_aws_components text)).
    { destruct (scan aws_services_map (str_lower text)) as [| x found] eqn:Hscan.
      - exists "Lambda". apply parse_aws_components_In. rewrite Hscan.
        simpl. right. left. reflexivity.
      - exists x. apply parse_aws_components_In. rewrite Hscan. now left. }
    destruct Hsome as [service Hin]. intros Hempty.
    rewrite Hempty in Hin. exact Hin.
  - apply list_set_NoDup.
  - intros service Hin. apply parse_aws_components_In in Hin.
    destruct (scan aws_services_map (str_lower text)) as [| x found] eqn:Hscan.
    + simpl in Hin. simpl.
      destruct Hin as [<- | [<- | [<- | []]]]; tauto.
    + rewrite <- Hscan in Hin. apply In_scan in Hin.
      destruct Hin as [keyword [Hin _]].
      apply in_map_iff. now exists (keyword, service).
  - intros Hscan service. rewrite parse_aws_components_In, Hscan. reflexivity.
  - intros Hbalancer.
    assert (Hfound : exists keyword,
               contains "load balancer" keyword = true /\
               contains keyword (str_lower text) = true).
    { destruct Hbalancer as [Hin | Hin];
        apply parse_aws_components_In in Hin;
        (destruct (scan aws_services_map (str_lower text)) as [| x found] eqn:Hscan;
         [simpl in Hin; destruct Hin as [H | [H | [H | []]]]; discriminate |]);
        rewrite <- Hscan in Hin; apply In_scan in Hin;
        destruct Hin as [keyword [Hin Hc]];
        apply In_keywords_of in Hin; simpl in Hin;
        destruct Hin as [<- | []]; eexists; split; try exact Hc; reflexivity. }
    destruct Hfound as [keyword [Hsub Hc]].
    assert (Helb : In "ELB" (scan aws_services_map (str_lower text))).
    { apply In_scan. exists "load balancer". split.
      - simpl. repeat (first [left; reflexivity | right]).
      - exact (contains_trans _ _ _ Hsub Hc). }
    apply parse_aws_components_In.
    destruct (scan aws_services_map (str_lower text)); [destruct Helb | exact Helb].
Qed.

End Devgenius.
End ParseComponents.

Section EnsureServer.
Context {J : Json} {O : OS}.
Import Widget.

(** X10.  Once [_ensure_server_running] has returned [True], the widget
    does not look at the child again: when the child has exited since,
    [_ensure_server_running] still returns [True] without starting another
    one, and the diagram request that follows it comes back with the
    "Server not running" error. *)
Theorem widget_never_restarts_the_server
    (self self1 : MCPArchitectureWidget) (code : Z)
    (requirements : string) (components : option (list string)) :
  _ensure_server_running self = Ret true self1 ->
  let later := mkWidget (crashed code (mcp_client self1))
                        (is_server_running self1) in
  _ensure_server_running later = Ret true later /\
  (running <- _ensure_server_running ;;
   on_client (Diagram.generate_aws_diagram requirements components))%py later
  = Ret (error_dict "Server not running") later.
Proof.
  intros Hensure later.
  assert (Hflag : is_server_running self1 = true).
  { unfold _ensure_server_running, bind, get, ret in Hensure.
    destruct (is_server_running self) eqn:Hrun.
    - injection Hensure as _ Hself. subst self1. exact Hrun.
    - unfold on_client, set_is_server_running in Hensure.
      destruct (Diagram.start_server (mcp_client self)) as [b c | e c |];
        try discriminate.
      simpl in Hensure. inversion Hensure; subst. reflexivity. }
  assert (Hlater : _ensure_server_running later = Ret true later).
  { unfold _ensure_server_running, bind, get, ret, later. simpl.
    rewrite Hflag. reflexivity. }
  split; [exact Hlater |].
  unfold bind at 1. rewrite Hlater.
  unfold on_client, Diagram.generate_aws_diagram.
  rewrite send_request_not_running; [reflexivity |].
  unfold later, crashed; simpl.
  destruct (Diagram.server_process (mcp_client self1)) as [p |] eqn:Hp; simpl.
  - discriminate.
  - now rewrite Hp.
Qed.

End EnsureServer.

(** *** Examples *)

Lemma widget_never_restarts_the_server_witness :
  let started :=
    Widget.mkWidget (Stub.client [] false) true in
  let later :=
    Widget.mkWidget (crashed 1 (Stub.client [] false)) true in
  @Widget._ensure_server_running Stub.os later = Ret true later /\
  (running <- @Widget._ensure_server_running Stub.os ;;
   Widget.on_client
     (@Diagram.generate_aws_diagram Codec.json "a web shop" None))%py later
  = Ret (error_dict "Server not running") later.
Proof.
  cbv zeta.
  apply (@widget_never_restarts_the_server Codec.json Stub.os
           (Widget.mkWidget (Stub.client [] false) true)
           (Widget.mkWidget (Stub.client [] false) true)
           1%Z "a web shop" None).
  reflexivity.
Defined.

(** ** The session client and the demo interface *)

Section SessionMore.
Import Terraform.

Lemma list_outcome_connected (self : TerraformMCPClient) (s : ClientSession) :
  session self = Some s ->
  get_available_tools self =
  match list_tools s with
  | Answers tools => Ret (map tool_dict tools) (after_call self s ListTools)
  | Fails e => Raise e (after_call self s ListTools)
  | Silent => Hang
  end /\
  get_available_resources self =
  match list_resources s with
  | Answers resources =>
      Ret (map resource_dict resources) (after_call self s ListResources)
  | Fails e => Raise e (after_call self s ListResources)
  | Silent => Hang
  end.
Proof.
  intros Hs. unfold get_available_tools, get_available_resources.
  rewrite !(guarded_connected _ _ _ Hs). unfold bind.
  rewrite !(await_session_runs _ _ _ _ Hs).
  split; [destruct (list_tools s) | destruct (list_resources s)]; reflexivity.
Qed.

Section OneCall.
Context {J : Json}.

(** X11.  On a client with a session, each operation sends exactly one call
    to the session, the one for its method, whether the operation then
    returns or raises; nothing else of the client changes. *)
Theorem operations_send_one_call
    (self : TerraformMCPClient) (s : ClientSession)
    (uri name type : string) (arguments : pyval)
    (extra : list (string * pyval)) :
  session self = Some s ->
  match read_outcome uri type self with
  | Ret _ self' | Raise _ self' => self' = after_call self s (ReadResource uri)
  | Hang => True
  end /\
  match tool_outcome name arguments type extra self with
  | Ret _ self' | Raise _ self' =>
      self' = after_call self s (CallTool name arguments)
  | Hang => True
  end /\
  match get_available_tools self with
  | Ret _ self' | Raise _ self' => self' = after_call self s ListTools
  | Hang => True
  end /\
  match get_available_resources self with
  | Ret _ self' | Raise _ self' => self' = after_call self s ListResources
  | Hang => True
  end.
Proof.
  intros Hs.
  destruct (list_outcome_connected self s Hs) as [Htools Hresources].
  rewrite (read_outcome_connected uri type self s Hs),
    (tool_outcome_connected name arguments type extra self s Hs),
    Htools, Hresources.
  cbv zeta. repeat split.
  - destruct (read_resource s uri) as [[| [text | kind] rest] | e |];
      reflexivity || exact I.
  - destruct (call_tool s name arguments) as [[| item rest] | e |];
      try reflexivity; try exact I.
    destruct (decode_or_output item); reflexivity.
  - destruct (list_tools s); reflexivity || exact I.
  - destruct (list_resources s); reflexivity || exact I.
Qed.

End OneCall.

(** X12.  A reader reports the first content item of the reply only: its
    text as the content and the length of that text as the content length,
    whatever items follow; when the first item carries no text the outcome
    has the status ["error"], also when a later item carries text. *)
Theorem reader_reports_the_first_item
    (op : M TerraformMCPClient pyval) (uri type : string)
    (self : TerraformMCPClient) (s : ClientSession)
    (item : content_item) (rest : list content_item) :
  In (op, uri, type) readers ->
  session self = Some s ->
  read_resource s uri = Answers (item :: rest) ->
  exists outcome,
    op self = Ret outcome (after_call self s (ReadResource uri)) /\
    match item with
    | TextItem text =>
        outcome = PDict [("status", PStr "success");
                         ("content", PStr text);
                         ("type", PStr type);
                         ("content_length", PInt (Z.of_nat (String.length text)))]
    | OtherItem _ =>
        status_of outcome = Some (PStr "error") /\
        field "type" outcome = Some (PStr type)
    end.
Proof.
  intros Hop Hs Hread.
  assert (Hreader : op = read_outcome uri type).
  { simpl in Hop.
    destruct Hop as [H | [H | [H | []]]]; inversion H; reflexivity. }
  subst op. rewrite (read_outcome_connected uri type self s Hs), Hread.
  destruct item as [text | kind]; eexists; split; try reflexivity.
  split; reflexivity.
Qed.

(** *** Leaving the connection *)

Lemma keeps_session_bind {A B : Type} (m : M TerraformMCPClient A)
    (k : A -> M TerraformMCPClient B) :
  keeps_session m -> (forall a, keeps_session (k a)) -> keeps_session (bind m k).
Proof.
  intros Hm Hk self Hself. unfold bind.
  specialize (Hm self Hself).
  destruct (m self) as [a self1 | e self1 |]; try exact Hm.
  exact (Hk a self1 Hm).
Qed.

Lemma keeps_session_ret {A : Type} (a : A) :
  keeps_session (ret (S := TerraformMCPClient) a).
Proof. intros self Hself. exact Hself. Qed.

Section Keeps.
Context {J : Json}.

Lemma read_outcome_keeps_session (uri type : string) :
  keeps_session (read_outcome uri type).
Proof.
  intros self Hself.
  destruct (session self) as [s |] eqn:Hs; [| now elim Hself].
  pose proof (operations_send_one_call self s uri EmptyString type PNone [] Hs)
    as (Hread & _).
  destruct (read_outcome uri type self); try exact I; subst; discriminate.
Qed.

Lemma tool_outcome_keeps_session (name : string) (arguments : pyval)
    (type : string) (extra : list (string * pyval)) :
  keeps_session (tool_outcome name arguments type extra).
Proof.
  intros self Hself.
  destruct (session self) as [s |] eqn:Hs; [| now elim Hself].
  pose proof (operations_send_one_call self s EmptyString name type arguments
                                       extra Hs)
    as (_ & Htool & _).
  destruct (tool_outcome name arguments type extra self); try exact I;
    subst; discriminate.
Qed.

Lemma listing_keeps_session :
  keeps_session get_available_tools /\ keeps_session get_available_resources.
Proof.
  split; intros self Hself;
    (destruct (session self) as [s |] eqn:Hs; [| now elim Hself]);
    pose proof (operations_send_one_call self s EmptyString EmptyString
                                         EmptyString PNone [] Hs)
      as (_ & _ & Htools & Hresources).
  - destruct (get_available_tools self); try exact I; subst; discriminate.
  - destruct (get_available_resources self); try exact I; subst; discriminate.
Qed.

End Keeps.

Lemma with_connect_leaves_closed {P : Mcp} {A : Type}
    (body : M TerraformMCPClient A) (self : TerraformMCPClient) :
  keeps_session body ->
  session self = None ->
  left_closed (with_connect body self).
Proof.
  intros Hbody Hnone.
  unfold with_connect, connect_enter, bind, get, lift, set_session.
  destruct (open_session (server_path self) (server_args self)) as [s |];
    [| simpl; now rewrite Hnone].
  specialize (Hbody (mkClient (server_path self) (server_args self) (Some s))).
  simpl in Hbody.
  destruct (body (mkClient (server_path self) (server_args self) (Some s)))
    as [a self1 | e self1 |]; [| | exact I];
    (assert (Hset : session self1 <> None) by (apply Hbody; discriminate));
    unfold connect_exit, set_session, ret, raise;
    (destruct (session self1) as [s1 |]; [reflexivity | now elim Hset]).
Qed.

Section Wrappers.
Context {J : Json} {P : Mcp}.

(** X13.  No wrapper of the module leaves an open session behind: when a
    wrapper returns, and when it raises, the session of its client has been
    closed, or the client never had one because the connection could not be
    made. *)
Theorem wrappers_leave_no_open_session
    (command working_directory framework asset_name asset_type : string)
    (variables : option (list (string * pyval))) (aws_region : option string)
    (wrapper : res TerraformMCPClient pyval) :
  In wrapper (live_wrappers command working_directory framework asset_name
                            asset_type variables aws_region) ->
  left_closed wrapper.
Proof.
  intros Hin. simpl in Hin.
  repeat (destruct Hin as [<- | Hin]); try contradiction;
    apply with_connect_leaves_closed; try reflexivity.
  - apply read_outcome_keeps_session.
  - apply read_outcome_keeps_session.
  - apply tool_outcome_keeps_session.
  - apply tool_outcome_keeps_session.
  - apply tool_outcome_keeps_session.
  - apply read_outcome_keeps_session.
  - apply keeps_session_bind;
      [apply listing_keeps_session | intros; apply keeps_session_ret].
  - apply keeps_session_bind;
      [apply listing_keeps_session | intros; apply keeps_session_ret].
Qed.

(** *** The routes *)

Lemma read_outcome_gives_status (uri type : string) :
  gives_status (read_outcome uri type).
Proof.
  intros self outcome self' Hrun.
  destruct (session self) as [s |] eqn:Hs.
  - rewrite (read_outcome_connected uri type self s Hs) in Hrun.
    cbv zeta in Hrun.
    destruct (read_resource s uri) as [[| [text | kind] rest] | e |];
      inversion Hrun; subst; simpl; tauto.
  - unfold read_outcome in Hrun.
    rewrite (guarded_not_connected _ _ Hs) in Hrun. discriminate.
Qed.

Lemma tool_outcome_gives_status (name : string) (arguments : pyval)
    (type : string) (extra : list (string * pyval)) :
  gives_status (tool_outcome name arguments type extra).
Proof.
  intros self outcome self' Hrun.
  destruct (session self) as [s |] eqn:Hs.
  - rewrite (tool_outcome_connected name arguments type extra self s Hs) in Hrun.
    cbv zeta in Hrun.
    destruct (call_tool s name arguments) as [[| item rest] | e |];
      try (inversion Hrun; subst; simpl; tauto).
    destruct (decode_or_output item); inversion Hrun; subst; simpl; tauto.
  - unfold tool_outcome in Hrun.
    rewrite (guarded_not_connected _ _ Hs) in Hrun. discriminate.
Qed.

Lemma listing_gives_status :
  gives_status
    (tools <- get_available_tools ;;
     ret (PDict [("status", PStr "success");
                 ("tools", PList tools);
                 ("tool_count", PInt (Z.of_nat (List.length tools)));
                 ("type", PStr "available_tools")]))%py /\
  gives_status
    (resources <- get_available_resources ;;
     ret (PDict [("status", PStr "success");
                 ("resources", PList resources);
                 ("resource_count", PInt (Z.of_nat (List.length resources)));
                 ("type", PStr "available_resources")]))%py.
Proof.
  split; intros self outcome self' Hrun; unfold bind, ret in Hrun;
    match type of Hrun with
    | match ?m with _ => _ end = _ => destruct m; inversion Hrun; subst
    end; simpl; tauto.
Qed.

Lemma with_connect_gives_status (body : M TerraformMCPClient pyval)
    (self : TerraformMCPClient) (outcome : pyval) (self' : TerraformMCPClient) :
  gives_status body ->
  with_connect body self = Ret outcome self' ->
  has_status outcome.
Proof.
  intros Hbody Hrun.
  unfold with_connect, connect_enter, bind, get, lift, set_session in Hrun.
  destruct (open_session (server_path self) (server_args self)) as [s |];
    [| discriminate].
  destruct (body (mkClient (server_path self) (server_args self) (Some s)))
    as [a self1 | e self1 |] eqn:Hb; try discriminate.
  - unfold connect_exit, set_session, ret in Hrun.
    destruct (session self1); inversion Hrun; subst; exact (Hbody _ _ _ Hb).
  - unfold connect_exit, set_session, raise in Hrun.
    destruct (session self1); discriminate.
Qed.

Lemma wrappers_give_status
    (command working_directory framework asset_name asset_type : string)
    (variables : option (list (string * pyval))) (aws_region : option string)
    (wrapper : res TerraformMCPClient pyval) (outcome : pyval)
    (self' : TerraformMCPClient) :
  In wrapper (live_wrappers command working_directory framework asset_name
                            asset_type variables aws_region) ->
  wrapper = Ret outcome self' ->
  has_status outcome.
Proof.
  intros Hin Hrun. simpl in Hin.
  repeat (destruct Hin as [<- | Hin]); try contradiction;
    (eapply with_connect_gives_status; [| exact Hrun]).
  - apply read_outcome_gives_status.
  - apply read_outcome_gives_status.
  - apply tool_outcome_gives_status.
  - apply tool_outcome_gives_status.
  - apply tool_outcome_gives_status.
  - apply read_outcome_gives_status.
  - apply listing_gives_status.
  - apply listing_gives_status.
Qed.

Lemma respond_stamps (call : res TerraformMCPClient pyval)
    (note : option string) (now : string) (response : pyval) :
  (forall outcome self', call = Ret outcome self' -> has_status outcome) ->
  Demo.respond call note now = Some response ->
  has_status response /\ field "timestamp" response = Some (PStr now).
Proof.
  intros Hcall Hrespond. unfold Demo.respond, run_async_function in Hrespond.
  destruct call as [outcome self' | e self' |]; [| | discriminate].
  - specialize (Hcall outcome self' eq_refl).
    injection Hrespond as <-.
    destruct outcome as [| | | | | | items];
      try (destruct Hcall; discriminate).
    unfold has_status in *. simpl in *.
    destruct note as [text |]; simpl;
      rewrite ?dict_get_set_other by discriminate;
      rewrite ?dict_get_set_same.
    + split; [exact Hcall | reflexivity].
    + split; [exact Hcall | reflexivity].
  - injection Hrespond as <-. split; [right |]; reflexivity.
Qed.

(** Each route answers, when it answers, with a document that has a status
    and the time stamp of the answer. *)
Lemma routes_have_status
    (asset_name asset_type : option string) (now : string) (response : pyval) :
  In (Some response) (Demo.routes asset_name asset_type now) ->
  has_status response /\ field "timestamp" response = Some (PStr now).
Proof.
  intros Hin.
  pose (wrappers :=
          live_wrappers EmptyString Demo.samples_dir "terraform"
            (Demo.arg asset_name "aws_s3_bucket") (Demo.arg asset_type "resource")
            None None).
  assert (Hw : forall w, In w wrappers ->
               forall outcome self', w = Ret outcome self' -> has_status outcome).
  { intros w Hw outcome self' Hrun.
    exact (wrappers_give_status _ _ _ _ _ _ _ w outcome self' Hw Hrun). }
  assert (Hinit :
            forall outcome self',
              execute_live_terraform_command "init" Demo.samples_dir None None
              = Ret outcome self' -> has_status outcome).
  { intros outcome self' Hrun.
    eapply with_connect_gives_status; [| exact Hrun].
    apply tool_outcome_gives_status. }
  assert (Hplan :
            forall outcome self',
              execute_live_terraform_command "plan" Demo.samples_dir None None
              = Ret outcome self' -> has_status outcome).
  { intros outcome self' Hrun.
    eapply with_connect_gives_status; [| exact Hrun].
    apply tool_outcome_gives_status. }
  simpl in Hin.
  destruct Hin as [Hin | [Hin | [Hin | [Hin | [Hin | [Hin | [Hin | [Hin
                  | [Hin | [Hin | []]]]]]]]]]].
  - unfold Demo.mcp_server_info, run_async_function in Hin.
    destruct get_available_tools_live as [tools c | e c |] eqn:Htools;
      [| injection Hin as <-; split; [right |]; reflexivity | discriminate].
    destruct get_available_resources_live as [resources c' | e c' |] eqn:Hres;
      [| injection Hin as <-; split; [right |]; reflexivity | discriminate].
    injection Hin as <-.
    destruct (dict_get_method tools "tool_count" (PInt 0)); simpl;
      [| split; [right |]; reflexivity].
    destruct (dict_get_method resources "resource_count" (PInt 0)); simpl;
      split; try (left; reflexivity); try (right; reflexivity); reflexivity.
  - apply (respond_stamps _ _ _ _
             (Hw get_available_tools_live ltac:(unfold wrappers; simpl; auto 10))
             Hin).
  - apply (respond_stamps _ _ _ _
             (Hw get_available_resources_live
                 ltac:(unfold wrappers; simpl; auto 10))
             Hin).
  - apply (respond_stamps _ _ _ _
             (Hw get_live_best_practices ltac:(unfold wrappers; simpl; auto 10))
             Hin).
  - apply (respond_stamps _ _ _ _
             (Hw get_live_workflow_guide ltac:(unfold wrappers; simpl; auto 10))
             Hin).
  - apply (respond_stamps _ _ _ _ Hinit Hin).
  - apply (respond_stamps _ _ _ _ Hplan Hin).
  - apply (respond_stamps _ _ _ _
             (Hw (run_live_checkov_scan Demo.samples_dir "terraform")
                 ltac:(unfold wrappers; simpl; auto 10))
             Hin).
  - apply (respond_stamps _ _ _ _
             (Hw (search_live_aws_provider_docs
                    (Demo.arg asset_name "aws_s3_bucket")
                    (Demo.arg asset_type "resource"))
                 ltac:(unfold wrappers; simpl; auto 10))
             Hin).
  - apply (respond_stamps _ _ _ _
             (Hw get_live_aws_provider_resources
                 ltac:(unfold wrappers; simpl; auto 10))
             Hin).
Qed.

(** A wrapper raises what establishing the session raises. *)
Lemma wrapper_refused {A : Type} (body : M TerraformMCPClient A) (e : exn) :
  open_session (server_path __init__) (server_args __init__) = Exc e ->
  with_connect body __init__ = Raise e __init__.
Proof.
  intros Hopen. unfold with_connect, connect_enter, bind, get, lift.
  now rewrite Hopen.
Qed.

(** The listing wrappers raise what the session raises, after leaving it. *)
Lemma listing_failure_is_raised (s : ClientSession) (e : exn) :
  open_session (server_path __init__) (server_args __init__) = Ok s ->
  (list_tools s = Fails e ->
   get_available_tools_live
   = Raise e (mkClient (server_path __init__) (server_args __init__)
                       (Some (close_session (record_call ListTools s))))) /\
  (list_resources s = Fails e ->
   get_available_resources_live
   = Raise e (mkClient (server_path __init__) (server_args __init__)
                       (Some (close_session (record_call ListResources s))))).
Proof.
  intros Hopen.
  destruct (list_outcome_connected
              (mkClient (server_path __init__) (server_args __init__) (Some s))
              s eq_refl) as [Htools Hresources].
  split; intros Hfails;
    unfold get_available_tools_live, get_available_resources_live,
      with_connect, connect_enter, bind, get, lift, set_session;
    rewrite Hopen, ?Htools, ?Hresources, Hfails; reflexivity.
Qed.

(** Each relaying route is the shared body at its call. *)
Lemma relayed_respond (asset_name asset_type : option string)
    (call : res TerraformMCPClient pyval) (route : string -> option pyval) :
  In (call, route) (Demo.relayed asset_name asset_type) ->
  exists note, route = Demo.respond call note.
Proof.
  intros Hin. unfold Demo.relayed in Hin.
  repeat (destruct Hin as [Hin | Hin];
          [injection Hin as <- <-; eexists; reflexivity |]).
  contradiction.
Qed.

(** An error outcome stays one when the shared body has stamped it. *)
Lemma respond_keeps_error (call : res TerraformMCPClient pyval)
    (note : option string) (now : string) (outcome : pyval)
    (self' : TerraformMCPClient) :
  call = Ret outcome self' ->
  status_of outcome = Some (PStr "error") ->
  exists response,
    Demo.respond call note now = Some response /\
    status_of response = Some (PStr "error") /\
    field "error" response = field "error" outcome /\
    field "timestamp" response = Some (PStr now).
Proof.
  intros -> Hstatus. unfold Demo.respond, run_async_function.
  destruct outcome as [| | | | | | items]; try discriminate.
  simpl in *.
  destruct note as [text |]; simpl; eexists; (split; [reflexivity |]); simpl;
    rewrite ?dict_get_set_other by discriminate;
    rewrite ?dict_get_set_same; auto.
Qed.

(** X14.  Each of the ten routes of the demo interface that relay a call of
    the client answers, when it answers, with a document that has a status,
    ["success"] or ["error"], and the time stamp of the answer.  What the
    client raises becomes the error document of the exception, with the
    status ["error"] and the exception's text: for each of the nine routes
    that relay one call when that call raises, for [mcp_server_info] when
    either of its two calls raises, for every route when the connection
    cannot be made, and for the listing routes when the session fails the
    listing.  An error outcome a call returns keeps its status and its
    error text in the answer. *)
Theorem routes_answer_with_status
    (asset_name asset_type : option string) (now : string) :
  (forall response,
      In (Some response) (Demo.routes asset_name asset_type now) ->
      has_status response /\ field "timestamp" response = Some (PStr now)) /\
  (forall e,
      status_of (Demo.error_response e now) = Some (PStr "error") /\
      field "error" (Demo.error_response e now) = Some (PStr (exn_str e))) /\
  map (fun relay => snd relay now) (Demo.relayed asset_name asset_type)
  = tl (Demo.routes asset_name asset_type now) /\
  (forall call route e self',
      In (call, route) (Demo.relayed asset_name asset_type) ->
      call = Raise e self' ->
      route now = Some (Demo.error_response e now)) /\
  (forall call route outcome self',
      In (call, route) (Demo.relayed asset_name asset_type) ->
      call = Ret outcome self' ->
      status_of outcome = Some (PStr "error") ->
      exists response,
        route now = Some response /\
        status_of response = Some (PStr "error") /\
        field "error" response = field "error" outcome /\
        field "timestamp" response = Some (PStr now)) /\
  (forall e self',
      get_available_tools_live = Raise e self' \/
      (exists tools self0,
          get_available_tools_live = Ret tools self0 /\
          get_available_resources_live = Raise e self') ->
      Demo.mcp_server_info now = Some (Demo.error_response e now)) /\
  (forall e route,
      open_session (server_path __init__) (server_args __init__) = Exc e ->
      In route (Demo.routes asset_name asset_type now) ->
      route = Some (Demo.error_response e now)) /\
  (forall s e,
      open_session (server_path __init__) (server_args __init__) = Ok s ->
      (list_tools s = Fails e ->
       Demo.mcp_tools now = Some (Demo.error_response e now) /\
       Demo.mcp_server_info now = Some (Demo.error_response e now)) /\
      (list_resources s = Fails e ->
       Demo.mcp_resources now = Some (Demo.error_response e now))).
Proof.
  split; [intros response; apply routes_have_status |].
  split; [intros e; split; reflexivity |].
  split; [reflexivity |].
  split.
  { intros call route e self' Hin Hrun.
    destruct (relayed_respond _ _ _ _ Hin) as [note ->].
    subst call. reflexivity. }
  split.
  { intros call route outcome self' Hin Hrun Herror.
    destruct (relayed_respond _ _ _ _ Hin) as [note ->].
    exact (respond_keeps_error call note now outcome self' Hrun Herror). }
  split.
  { intros e self' [Htools | (tools & self0 & Htools & Hresources)];
      unfold Demo.mcp_server_info, run_async_function.
    - now rewrite Htools.
    - now rewrite Htools, Hresources. }
  split.
  { intros e route Hopen Hin. unfold Demo.routes in Hin.
    repeat (destruct Hin as [<- | Hin]); try contradiction;
      unfold Demo.mcp_server_info, Demo.mcp_tools, Demo.mcp_resources,
        Demo.best_practices, Demo.workflow_guide, Demo.terraform_init,
        Demo.terraform_plan, Demo.checkov_scan, Demo.search_aws_provider_docs,
        Demo.aws_provider_resources, Demo.respond, run_async_function,
        get_available_tools_live, get_available_resources_live,
        get_live_best_practices, get_live_workflow_guide,
        execute_live_terraform_command, run_live_checkov_scan,
        search_live_aws_provider_docs, get_live_aws_provider_resources;
      rewrite (wrapper_refused _ e Hopen); reflexivity. }
  intros s e Hopen.
  destruct (listing_failure_is_raised s e Hopen) as [Htools Hresources].
  split; intros Hfails.
  - specialize (Htools Hfails).
    unfold Demo.mcp_tools, Demo.mcp_server_info, Demo.respond,
      run_async_function.
    rewrite Htools. split; reflexivity.
  - specialize (Hresources Hfails).
    unfold Demo.mcp_resources, Demo.respond, run_async_function.
    rewrite Hresources. reflexivity.
Qed.

(** X15.  When the connection is made and the session lists its tools, the
    module's [get_available_tools] returns a success document with one
    entry per tool, in the order of the session, and a tool count equal to
    their number; it leaves the session closed, with the one listing call
    sent.  The entry of a tool has the tool's name and description, and an
    input schema exactly when the tool has one. *)
Theorem listing_wrapper_counts_the_tools
    (s : ClientSession) (tools : list Tool) :
  open_session (server_path __init__) (server_args __init__) = Ok s ->
  list_tools s = Answers tools ->
  get_available_tools_live
  = Ret (PDict [("status", PStr "success");
                ("tools", PList (map tool_dict tools));
                ("tool_count", PInt (Z.of_nat (List.length tools)));
                ("type", PStr "available_tools")])
        (mkClient (server_path __init__) (server_args __init__)
                  (Some (close_session (record_call ListTools s)))) /\
  (forall tool,
      field "name" (tool_dict tool) = Some (tool_name tool) /\
      field "description" (tool_dict tool) = Some (tool_description tool) /\
      field "inputSchema" (tool_dict tool) = tool_inputSchema tool).
Proof.
  intros Hopen Hlist. split.
  - unfold get_available_tools_live, with_connect, connect_enter, bind,
      get, lift, set_session.
    rewrite Hopen.
    destruct (list_outcome_connected
                (mkClient (server_path __init__) (server_args __init__) (Some s))
                s eq_refl) as [Htools _].
    rewrite Htools, Hlist. unfold ret. simpl.
    now rewrite length_map.
  - intros [name description [schema |]]; repeat split; reflexivity.
Qed.

End Wrappers.
End SessionMore.

(** *** Examples *)

Lemma operations_send_one_call_witness :
  let self := Stub.connected [Terraform.TextItem "Use remote state."] in
  match Terraform.get_aws_best_practices self with
  | Ret _ self' | Raise _ self' =>
      self' = after_call self
                (Stub.session_answering [Terraform.TextItem "Use remote state."])
                (Terraform.ReadResource "terraform://aws_best_practices")
  | Hang => True
  end.
Proof.
  cbv zeta.
  exact (proj1 (@operations_send_one_call Codec.json
                  (Stub.connected [Terraform.TextItem "Use remote state."])
                  (Stub.session_answering [Terraform.TextItem "Use remote state."])
                  "terraform://aws_best_practices" EmptyString
                  "aws_best_practices" PNone [] eq_refl)).
Defined.

Lemma reader_reports_the_first_item_witness :
  let contents := [Terraform.TextItem "Plan first."; Terraform.TextItem "Then apply."] in
  exists outcome,
    Terraform.get_workflow_guide (Stub.connected contents)
    = Ret outcome
          (after_call (Stub.connected contents) (Stub.session_answering contents)
             (Terraform.ReadResource "terraform://development_workflow")) /\
    outcome = PDict [("status", PStr "success");
                     ("content", PStr "Plan first.");
                     ("type", PStr "workflow_guide");
                     ("content_length", PInt 11)].
Proof.
  cbv zeta.
  apply (reader_reports_the_first_item Terraform.get_workflow_guide
           "terraform://development_workflow" "workflow_guide"
           (Stub.connected [Terraform.TextItem "Plan first.";
                            Terraform.TextItem "Then apply."])
           (Stub.session_answering [Terraform.TextItem "Plan first.";
                                    Terraform.TextItem "Then apply."])
           (Terraform.TextItem "Plan first.") [Terraform.TextItem "Then apply."]);
    [right; left; reflexivity | reflexivity | reflexivity].
Defined.

Lemma wrappers_leave_no_open_session_witness :
  left_closed (@Terraform.get_live_best_practices Stub.mcp) /\
  left_closed (@Terraform.get_available_tools_live Stub.mcp_down).
Proof.
  split.
  - apply (@wrappers_leave_no_open_session Codec.json Stub.mcp
             "plan" "/srv/infra" "terraform" "aws_s3_bucket" "resource"
             None None).
    left. reflexivity.
  - apply (@wrappers_leave_no_open_session Codec.json Stub.mcp_down
             "plan" "/srv/infra" "terraform" "aws_s3_bucket" "resource"
             None None).
    do 6 right. left. reflexivity.
Defined.

(** The server cannot be started: each route answers with the error
    document of the exception.  The session fails the listing of its
    resources: the route answers with the error document of that one. *)
Lemma routes_answer_with_status_witness :
  let now := "2025-03-01T09:30:00" in
  let refused :=
    Demo.error_response
      (mkExn (OtherException "FileNotFoundError") "python3.10") now in
  @Demo.best_practices Stub.mcp_down now = Some refused /\
  @Demo.terraform_plan Codec.json Stub.mcp_down now = Some refused /\
  @Demo.mcp_server_info Stub.mcp_down now = Some refused /\
  has_status refused /\
  field "timestamp" refused = Some (PStr now) /\
  @Demo.mcp_resources Fixture.mcp now
  = Some (PDict [("status", PStr "error");
                 ("error", PStr "Method not found");
                 ("timestamp", PStr now)]).
Proof.
  cbv zeta.
  destruct (@routes_answer_with_status Codec.json Stub.mcp_down None None
              "2025-03-01T09:30:00")
    as (Hstatus & _ & _ & _ & _ & _ & Hrefused & _).
  destruct (@routes_answer_with_status Codec.json Fixture.mcp None None
              "2025-03-01T09:30:00")
    as (_ & _ & _ & _ & _ & _ & _ & Hsession).
  split; [apply (Hrefused _ _ eq_refl); do 3 right; left; reflexivity |].
  split; [apply (Hrefused _ _ eq_refl); do 6 right; left; reflexivity |].
  split; [apply (Hrefused _ _ eq_refl); left; reflexivity |].
  split; [apply Hstatus; do 3 right; left; reflexivity |].
  split; [apply Hstatus; do 3 right; left; reflexivity |].
  exact (proj2 (Hsession Fixture.listing_session Fixture.no_such_method eq_refl)
               eq_refl).
Defined.

(** A session that lists two tools, the second without an input schema. *)
Lemma listing_wrapper_counts_the_tools_witness :
  @Terraform.get_available_tools_live Fixture.mcp
  = Ret (PDict [("status", PStr "success");
                ("tools",
                 PList [PDict [("name", PStr "ExecuteTerraformCommand");
                               ("description",
                                PStr "Execute Terraform workflow commands");
                               ("inputSchema",
                                PDict [("type", PStr "object");
                                       ("required", PList [PStr "command"])])];
                        PDict [("name", PStr "RunCheckovScan");
                               ("description", PNone)]]);
                ("tool_count", PInt 2);
                ("type", PStr "available_tools")])
        (Terraform.mkClient "python3.10"
           ["-m"; "awslabs.terraform_mcp_server.server"]
           (Some (Terraform.close_session
                    (Terraform.record_call Terraform.ListTools
                                           Fixture.listing_session)))) /\
  field "inputSchema" (Terraform.tool_dict Fixture.plan_tool)
  = Some (PDict [("type", PStr "object");
                 ("required", PList [PStr "command"])]) /\
  field "inputSchema" (Terraform.tool_dict Fixture.scan_tool) = None.
Proof.
  destruct (@listing_wrapper_counts_the_tools Fixture.mcp
              Fixture.listing_session [Fixture.plan_tool; Fixture.scan_tool]
              eq_refl eq_refl) as [Hrun Hfields].
  split; [exact Hrun |].
  split.
  - exact (proj2 (proj2 (Hfields Fixture.plan_tool))).
  - exact (proj2 (proj2 (Hfields Fixture.scan_tool))).
Defined.
